(** * notebook1: gradient and Hessian of a 3-class logistic regression

    A shallow embedding of [notebook1.ipynb].  The notebook computes the
    gradient of a cross-entropy loss three ways (torch.func [grad],
    [loss.backward], closed form) and the Hessian two ways (torch.func
    [hessian], closed form) and compares them with [torch.allclose].

    The notebook sets [torch.set_default_dtype(torch.float64)].  The cells
    are embedded twice.

    - Over [R], exact arithmetic: every float64 operation is read as the
      operation on real numbers.  This reading has no rounding, no overflow
      and no NaN but one, the mean over no sample, which is a constructor of
      its own ([NaN]).  Shapes, exceptions, the order of the updates and the
      algebra of the closed forms are stated on it.  What is an identity of
      real numbers only (a sum that is exactly 1, a difference that is
      exactly 0) is marked as such where it is stated.
    - Over binary64 ([Module Float64], on Rocq's primitive floats): the
      closed-form cells 8 and 11 and [torch.allclose], with the IEEE 754
      operations the cells apply.  It is evaluated at concrete tensors, and
      shows where the float64 code leaves the exact reading.

    A tensor of dimension 1 is a list, of dimension 2 a list of rows.  A
    Python exception is a [Raise] of the error monad [result].  torch's
    differentiation operators are not code of the notebook: over [R] they
    are specified by what they return, the partial derivatives
    ([derivable_pt_lim]) of the function they are given, and they have no
    binary64 embedding. *)

From Stdlib Require Import Reals Lra Lia ZArith String Bool Arith List Permutation.
From Stdlib Require Floats.
Import ListNotations.
Local Open Scope R_scope.

(** ** Exceptions *)

Inductive error : Type :=
| IndexError      (* "Target t is out of bounds." *)
| ValueError      (* batch sizes of input and target differ *)
| RuntimeError    (* shapes that cannot be multiplied, bad one_hot class *)
| AttributeError  (* [.data] of a [grad] that is [None] *)
| KeyError.

Inductive result (A : Type) : Type :=
| Ok (a : A)
| Raise (e : error).
Arguments Ok {A} a.
Arguments Raise {A} e.

Definition bind {A B : Type} (c : result A) (k : A -> result B) : result B :=
  match c with
  | Ok a => k a
  | Raise e => Raise e
  end.

Notation "x <- c ;; k" := (bind c (fun x => k))
  (at level 61, c at next level, right associativity).

(** ** Tensors *)

Definition vector := list R.
Definition matrix := list (list R).

(** A 0-dimensional float tensor that comes out of a reduction.  [NaN] is the
    0/0 of a mean over no sample; the NaN that float64 gives on an overflow
    (inf - inf) has no counterpart over [R]. *)
Inductive scalar : Type :=
| Real (r : R)
| NaN.

Definition sum (v : vector) : R := fold_right Rplus 0 v.

Fixpoint dot (u v : vector) : R :=
  match u, v with
  | a :: u', b :: v' => a * b + dot u' v'
  | _, _ => 0
  end.

Definition rows (M : matrix) : nat := length M.
Definition cols (M : matrix) : nat := length (hd [] M).

Definition entry (M : matrix) (i j : nat) : R := nth j (nth i M []) 0.

Definition column (M : matrix) (j : nat) : vector :=
  map (fun row => nth j row 0) M.

(** [M.T] *)
Definition T (M : matrix) : matrix :=
  map (column M) (seq 0 (cols M)).

(** A matrix all of whose rows have [c] entries. *)
Definition shape (r c : nat) (M : matrix) : Prop :=
  length M = r /\ Forall (fun row => length row = c) M.

(** [A @ B]; torch raises a RuntimeError when the inner sizes differ. *)
Definition matmul (A B : matrix) : result matrix :=
  if forallb (fun row => (length row =? rows B)%nat) A
  then Ok (map (fun row => map (fun j => dot row (column B j)) (seq 0 (cols B))) A)
  else Raise RuntimeError.

(** [s * M] for a 0-dimensional [s]. *)
Definition scale (s : R) (M : matrix) : matrix :=
  map (map (Rmult s)) M.

(** [M.flatten()]: row-major. *)
Definition flatten (M : matrix) : vector := concat M.

(** [v.unsqueeze(1)]: a length-n vector as an n x 1 matrix. *)
Definition unsqueeze1 (v : vector) : matrix := map (fun a => [a]) v.

(** [torch.zeros(r, c)] *)
Definition zeros (r c : nat) : matrix := repeat (repeat 0 c) r.

(** [A - B], elementwise, on operands of one shape. *)
Definition msub (A B : matrix) : matrix :=
  map (fun '(ra, rb) => map (fun '(a, b) => a - b) (combine ra rb)) (combine A B).

(** [A + B], elementwise, on operands of one shape. *)
Definition madd (A B : matrix) : matrix :=
  map (fun '(ra, rb) => map (fun '(a, b) => a + b) (combine ra rb)) (combine A B).

(** [v.softmax(dim=0)]: exp(v_i) / sum_j exp(v_j), with the exponential of
    [R]: every entry is strictly between 0 and 1 and the entries add up to 1
    exactly.  (In float64 an entry can be exactly 0.0 or 1.0, the sum is 1
    only up to rounding, and an infinite logit gives NaN: see
    [Float64.softmax].) *)
Definition softmax (v : vector) : vector :=
  map (fun a => exp a / sum (map exp v)) v.

(** [M.softmax(dim=1)]: the softmax of every row. *)
Definition softmax_rows (M : matrix) : matrix := map softmax M.

(** [log_softmax]: v_i - log (sum_j exp(v_j)). *)
Definition log_softmax (v : vector) : vector :=
  map (fun a => a - ln (sum (map exp v))) v.

(** [F.one_hot(target, num_classes)].  A class that is negative or not below
    [num_classes] is a RuntimeError. *)
Definition one_hot_row (num_classes : nat) (t : Z) : result vector :=
  if ((0 <=? t)%Z && (t <? Z.of_nat num_classes)%Z)%bool
  then Ok (map (fun c => if (Z.of_nat c =? t)%Z then 1 else 0) (seq 0 num_classes))
  else Raise RuntimeError.

Fixpoint one_hot (target : list Z) (num_classes : nat) : result matrix :=
  match target with
  | [] => Ok []
  | t :: rest =>
      row <- one_hot_row num_classes t ;;
      more <- one_hot rest num_classes ;;
      Ok (row :: more)
  end.

(** ** Name-keyed parameter sets

    [dict(model.named_parameters())] and the results of [grad] and [hessian]
    are Python dicts keyed by parameter name; insertion order is the order of
    [.values()], so a dict is an association list. *)

Definition dict (V : Type) : Type := list (string * V).

Fixpoint lookup {V : Type} (name : string) (d : dict V) : option V :=
  match d with
  | [] => None
  | (k, v) :: d' => if String.eqb k name then Some v else lookup name d'
  end.

(** The dict with the value of an existing key replaced. *)
Fixpoint dict_set {V : Type} (name : string) (v : V) (d : dict V) : dict V :=
  match d with
  | [] => []
  | (k, w) :: d' =>
      if String.eqb k name then (k, v) :: d' else (k, w) :: dict_set name v d'
  end.

Definition values {V : Type} (d : dict V) : list V := map snd d.

(** ** The model *)

(** A [torch.nn.Parameter]: its tensor and the [.grad] field that
    [backward] accumulates into ([None] until then). *)
Record NNParameter : Type := mkNNParameter {
  data_ : matrix;
  grad : option matrix
}.

(** [nn.Linear(4, 3, bias=False)]: one 3 x 4 weight. *)
Record Linear : Type := mkLinear {
  weight : NNParameter
}.

Record LogisticRegressionModel : Type := mkModel {
  linear : Linear
}.

Definition W_of (model : LogisticRegressionModel) : matrix :=
  data_ (weight (linear model)).

(** [F.linear(input, weight)] without bias: input @ weight.T *)
Definition F_linear (input W : matrix) : result matrix :=
  matmul input (T W).

(** [LogisticRegressionModel.forward] *)
Definition forward (model : LogisticRegressionModel) (x : matrix) : result matrix :=
  F_linear x (W_of model).

(** [dict(model.named_parameters())] *)
Definition named_parameters (model : LogisticRegressionModel) : dict matrix :=
  [("linear.weight"%string, W_of model)].

(** [functional_call(model, params, (data,))]: the forward pass with the
    tensors of [params] in place of the module's own parameters of the same
    name; a name that [params] lacks keeps the module's tensor. *)
Definition functional_call (model : LogisticRegressionModel)
    (params : dict matrix) (data : matrix) : result matrix :=
  let W := match lookup "linear.weight" params with
           | Some W => W
           | None => W_of model
           end in
  F_linear data W.

(** ** The criterion: [torch.nn.CrossEntropyLoss()]

    All arguments are the defaults: no class weights, [ignore_index = -100],
    [reduction = 'mean'], no label smoothing.  [F.cross_entropy] is
    [nll_loss] of [log_softmax] along dim 1. *)

Definition ignore_index : Z := (-100)%Z.

(** The terms -logp[n][target[n]] of the samples that are not ignored.  A
    target that is neither the ignore index nor a class is an IndexError. *)
Fixpoint nll_terms (logp : matrix) (target : list Z) : result (list R) :=
  match logp, target with
  | row :: logp', t :: target' =>
      if (t =? ignore_index)%Z then nll_terms logp' target'
      else if ((0 <=? t)%Z && (t <? Z.of_nat (length row))%Z)%bool then
        rest <- nll_terms logp' target' ;;
        Ok (- nth (Z.to_nat t) row 0 :: rest)
      else Raise IndexError
  | _, _ => Ok []
  end.

(** [F.nll_loss] with mean reduction: the sum of the terms over the number of
    samples that are not ignored, which is 0/0 = NaN when there is none.
    (Over [R] this is the only NaN; in float64 a logit that overflows gives a
    NaN loss on a label of {0,1,2} too, and no exception.) *)
Definition nll_loss (logp : matrix) (target : list Z) : result scalar :=
  if (length logp =? length target)%nat then
    terms <- nll_terms logp target ;;
    Ok (match terms with
        | [] => NaN
        | _ => Real (sum terms / INR (length terms))
        end)
  else Raise ValueError.

Definition criterion (out : matrix) (target : list Z) : result scalar :=
  nll_loss (map log_softmax out) target.

(** ** Cell 6 and cell 10: the loss as a function of the parameter set *)

Definition compute_loss (model : LogisticRegressionModel) (params : dict matrix)
    (data : matrix) (target : list Z) : result scalar :=
  out <- functional_call model params data ;;
  criterion out target.

(** ** Cell 8: the analytical gradient

    [g3 = ((out.softmax(dim=1) - target_onehot).T @ data).flatten().unsqueeze(1)] *)

Definition g3_matrix (model : LogisticRegressionModel) (data : matrix)
    (target : list Z) : result matrix :=
  out <- forward model data ;;
  target_onehot <- one_hot target 3 ;;
  matmul (T (msub (softmax_rows out) target_onehot)) data.

Definition g3 (model : LogisticRegressionModel) (data : matrix)
    (target : list Z) : result matrix :=
  G <- g3_matrix model data target ;;
  Ok (unsqueeze1 (flatten G)).

(** ** Cell 11: the analytical Hessian *)

(** [l[k : k + len(new)] = new] on a list, for a slice inside [l]. *)
Definition set_slice {A : Type} (l : list A) (k : nat) (new : list A) : list A :=
  firstn k l ++ new ++ skipn (k + length new) l.

Fixpoint zip_with {A B C : Type} (f : A -> B -> C) (l : list A) (m : list B) : list C :=
  match l, m with
  | a :: l', b :: m' => f a b :: zip_with f l' m'
  | _, _ => []
  end.

(** [H[r0 : r0 + rows B, c0 : c0 + cols B] = B], for a block inside [H]. *)
Definition set_block (H : matrix) (r0 c0 : nat) (B : matrix) : matrix :=
  firstn r0 H
  ++ zip_with (fun row b => set_slice row c0 b) (firstn (length B) (skipn r0 H)) B
  ++ skipn (r0 + length B) H.

(** [int(i == j)] *)
Definition int_eq (i j : nat) : R := if (i =? j)%nat then 1 else 0.

(** [for i in l: s = body(s, i)], with the exceptions of the body. *)
Fixpoint for_each {S : Type} (l : list nat) (body : S -> nat -> result S) (s : S)
  : result S :=
  match l with
  | [] => Ok s
  | i :: l' => s' <- body s i ;; for_each l' body s'
  end.

(** [M[0]]: the first row, an IndexError on a tensor without rows. *)
Definition first_row (M : matrix) : result vector :=
  match M with
  | row :: _ => Ok row
  | [] => Raise IndexError
  end.

(** [prob = model(data)[0].softmax(dim=0)]
    [hess2 = torch.zeros(12, 12)]
    [for i in range(3):]
    [    for j in range(3):]
    [        hess2[i*4:(i+1)*4, j*4:(j+1)*4] =]
    [            prob[i] * (int(i == j) - prob[j]) * (data.T @ data)]
    ([prob] has the 3 entries of [nn.Linear(4, 3)], so [prob[i]] is in range.) *)
Definition hess2 (model : LogisticRegressionModel) (data : matrix) : result matrix :=
  out <- forward model data ;;
  out0 <- first_row out ;;
  let prob := softmax out0 in
  for_each (seq 0 3) (fun H i =>
    for_each (seq 0 3) (fun H j =>
      xx <- matmul (T data) data ;;
      Ok (set_block H (i * 4) (j * 4)
            (scale (nth i prob 0 * (int_eq i j - nth j prob 0)) xx)))
      H)
    (zeros 12 12).

(** ** Cell 9 and cell 12: [torch.allclose]

    [allclose(input, other)] with the defaults [rtol = 1e-05], [atol = 1e-08]:
    every |input - other| <= atol + rtol * |other|, entry by entry.  Both
    operands have one shape at every call of the notebook, so there is no
    broadcasting.  The comparison is one of float64 numbers, where a NaN is
    close to nothing: it is embedded as [Float64.allclose] below, on this
    traversal of two tensors of one shape. *)

Fixpoint all2 {A : Type} (p : A -> A -> bool) (l m : list A) : bool :=
  match l, m with
  | [], [] => true
  | a :: l', b :: m' => p a b && all2 p l' m'
  | _, _ => false
  end.

(** ** Differentiation

    What torch's reverse- and forward-mode differentiation return is specified,
    not computed: the entry (i, j) of the gradient of [f] at [W] is the
    derivative at W[i][j] of [f] along that one entry. *)

Fixpoint update {A : Type} (l : list A) (k : nat) (a : A) : list A :=
  match l, k with
  | [], _ => []
  | _ :: l', O => a :: l'
  | b :: l', S k' => b :: update l' k' a
  end.

Definition set_entry (W : matrix) (i j : nat) (t : R) : matrix :=
  update W i (update (nth i W []) j t).

Definition same_shape (A B : matrix) : Prop :=
  Forall2 (fun ra rb => length ra = length rb) A B.

Definition partial_derivative (f : matrix -> R) (W : matrix) (i j : nat) (d : R) : Prop :=
  derivable_pt_lim (fun t => f (set_entry W i j t)) (entry W i j) d.

Definition is_gradient (f : matrix -> R) (W G : matrix) : Prop :=
  same_shape W G /\
  forall i j, (i < length W)%nat -> (j < length (nth i W []))%nat ->
    partial_derivative f W i j (entry G i j).

(** The gradient with respect to a parameter set has the keys of the set and,
    under each, the gradient along that parameter. *)
Definition is_gradient_dict (f : dict matrix -> R) (p g : dict matrix) : Prop :=
  Forall2 (fun kv kg =>
             fst kv = fst kg /\
             is_gradient (fun V => f (dict_set (fst kv) V p)) (snd kv) (snd kg))
          p g.

(** The number a loss evaluation returned (0 stands in when it returned none;
    no statement below reads it then). *)
Definition value_of (r : result scalar) : R :=
  match r with
  | Ok (Real v) => v
  | _ => 0
  end.

(** [torch.zeros_like] *)
Definition zeros_like (M : matrix) : matrix := map (map (fun _ => 0)) M.

(** [grad(f, argnums=1)(..., params, ...)]: the forward evaluation of [f]
    comes first and its exception, if any, is the exception of the call.  A
    loss of NaN is the mean over no sample: every sample is ignored, nothing
    of the parameters reaches the loss, and the call returns zeros. *)
Inductive func_grad (f : dict matrix -> result scalar) (p : dict matrix)
  : result (dict matrix) -> Prop :=
| func_grad_raise : forall e,
    f p = Raise e -> func_grad f p (Raise e)
| func_grad_ok : forall v g,
    f p = Ok (Real v) ->
    is_gradient_dict (fun q => value_of (f q)) p g ->
    func_grad f p (Ok g)
| func_grad_nan :
    f p = Ok NaN ->
    func_grad f p (Ok (map (fun kv => (fst kv, zeros_like (snd kv))) p)).


(** ** Cell 6: the gradient by [torch.func.grad]

    [g_dict = grad(compute_loss, argnums=1)(model, params, data, target)]
    [g1 = torch.cat([g.data.flatten() for g in g_dict.values()]).unsqueeze(1)] *)

Definition cat_flatten (g : dict matrix) : matrix :=
  unsqueeze1 (concat (map flatten (values g))).

Definition g1 (model : LogisticRegressionModel) (params : dict matrix)
    (data : matrix) (target : list Z) (out : result matrix) : Prop :=
  exists r,
    func_grad (fun q => compute_loss model q data target) params r /\
    out = (g_dict <- r ;; Ok (cat_flatten g_dict)).

(** ** Cell 7: the gradient by [loss.backward]

    [model.zero_grad()]
    [criterion(model(data), target).backward()]
    [g2 = torch.cat([p.grad.data.flatten() for p in model.parameters()]).unsqueeze(1)] *)

Definition with_grad (model : LogisticRegressionModel) (g : option matrix)
  : LogisticRegressionModel :=
  mkModel (mkLinear (mkNNParameter (W_of model) g)).

Definition with_weight (model : LogisticRegressionModel) (V : matrix)
  : LogisticRegressionModel :=
  mkModel (mkLinear (mkNNParameter V (grad (weight (linear model))))).

(** [model.zero_grad()]: every [.grad] becomes [None] ([set_to_none=True]). *)
Definition zero_grad (model : LogisticRegressionModel) : LogisticRegressionModel :=
  with_grad model None.

(** What [backward] does to a [.grad]: it is set when [None] and added to
    otherwise. *)
Definition accumulate (old : option matrix) (G : matrix) : option matrix :=
  match old with
  | None => Some G
  | Some G0 => Some (madd G0 G)
  end.

(** [criterion(model(data), target)], the loss on the module's own weight. *)
Definition model_loss (model : LogisticRegressionModel) (data : matrix)
    (target : list Z) : result scalar :=
  out <- forward model data ;;
  criterion out target.

(** [criterion(model(data), target).backward()], from a model to the model
    after it.  The forward evaluation comes first.  On the NaN of a mean over
    no sample [backward] runs and accumulates zeros. *)
Inductive backward (model : LogisticRegressionModel) (data : matrix) (target : list Z)
  : result LogisticRegressionModel -> Prop :=
| backward_raise : forall e,
    model_loss model data target = Raise e ->
    backward model data target (Raise e)
| backward_ok : forall v G,
    model_loss model data target = Ok (Real v) ->
    is_gradient (fun V => value_of (model_loss (with_weight model V) data target))
                (W_of model) G ->
    backward model data target
             (Ok (with_grad model (accumulate (grad (weight (linear model))) G)))
| backward_nan :
    model_loss model data target = Ok NaN ->
    backward model data target
             (Ok (with_grad model (accumulate (grad (weight (linear model)))
                                              (zeros_like (W_of model))))).

(** The last line of the cell: [p.grad.data] of a [None] is an
    AttributeError. *)
Definition read_grads (model : LogisticRegressionModel) : result matrix :=
  match grad (weight (linear model)) with
  | Some G => Ok (unsqueeze1 (concat [flatten G]))
  | None => Raise AttributeError
  end.

Definition g2 (model : LogisticRegressionModel) (data : matrix) (target : list Z)
    (out : result matrix) : Prop :=
  exists r,
    backward (zero_grad model) data target r /\
    out = (model' <- r ;; read_grads model').

(** ** Cell 10: the Hessian by [torch.func.hessian]

    [hess_dict = hessian(compute_loss, argnums=1)(model, params, data, target)]
    [hess1 = hess_dict["linear.weight"]["linear.weight"].reshape(12, 12)]

    [hessian] is forward-over-reverse: the derivative of the gradient.  The
    block of two parameters of shapes (r1, c1) and (r2, c2) is a tensor of shape
    (r1, c1, r2, c2), here a matrix of matrices. *)

Definition tensor4 := list (list matrix).

Definition params_like (p q : dict matrix) : Prop :=
  Forall2 (fun kv kw => fst kv = fst kw /\ same_shape (snd kv) (snd kw)) p q.

Definition item (d : dict matrix) (name : string) : matrix :=
  match lookup name d with
  | Some M => M
  | None => []
  end.

(** [B] is the derivative along [W2] of the entries of a matrix-valued [G]
    that has the shape of [W1]. *)
Definition is_jacobian (G : matrix -> matrix) (W1 W2 : matrix) (B : tensor4) : Prop :=
  Forall2 (fun row brow => length row = length brow) W1 B /\
  forall i j, (i < length W1)%nat -> (j < length (nth i W1 []))%nat ->
    is_gradient (fun V => entry (G V) i j) W2 (nth j (nth i B []) []).

Definition is_hessian_dict (f : dict matrix -> R) (p : dict matrix)
    (h : dict (dict tensor4)) : Prop :=
  exists gradf : dict matrix -> dict matrix,
    (forall q, params_like p q -> is_gradient_dict f q (gradf q)) /\
    Forall2 (fun kv kh =>
      fst kv = fst kh /\
      Forall2 (fun kv' kb =>
        fst kv' = fst kb /\
        is_jacobian (fun V => item (gradf (dict_set (fst kv') V p)) (fst kv))
                    (snd kv) (snd kv') (snd kb))
        p (snd kh))
      p h.

(** Zeros of shape (r1, c1, r2, c2), for two parameters of these shapes. *)
Definition zeros_like4 (W1 W2 : matrix) : tensor4 :=
  map (map (fun _ => zeros_like W2)) W1.

(** [hessian(f, argnums=1)(..., params, ...)], with the exception of the
    forward evaluation and the zeros of a mean over no sample as [grad]. *)
Inductive func_hessian (f : dict matrix -> result scalar) (p : dict matrix)
  : result (dict (dict tensor4)) -> Prop :=
| func_hessian_raise : forall e,
    f p = Raise e -> func_hessian f p (Raise e)
| func_hessian_ok : forall v h,
    f p = Ok (Real v) ->
    is_hessian_dict (fun q => value_of (f q)) p h ->
    func_hessian f p (Ok h)
| func_hessian_nan :
    f p = Ok NaN ->
    func_hessian f p
      (Ok (map (fun kv =>
                  (fst kv,
                   map (fun kv' => (fst kv', zeros_like4 (snd kv) (snd kv'))) p))
               p)).

(** [d[name]] *)
Definition getitem {V : Type} (d : dict V) (name : string) : result V :=
  match lookup name d with
  | Some v => Ok v
  | None => Raise KeyError
  end.

(** [.reshape(12, 12)] of a tensor of shape (3, 4, 3, 4): row 4 i + j is the
    row-major flattening of the matrix at [i][j]. *)
Definition reshape_12_12 (t : tensor4) : matrix :=
  map flatten (concat t).

Definition hess1 (model : LogisticRegressionModel) (params : dict matrix)
    (data : matrix) (target : list Z) (out : result matrix) : Prop :=
  exists r,
    func_hessian (fun q => compute_loss model q data target) params r /\
    out = (hess_dict <- r ;;
           inner <- getitem hess_dict "linear.weight" ;;
           block <- getitem inner "linear.weight" ;;
           Ok (reshape_12_12 block)).

(** ** The closed forms, as the specification words them *)

(** logits = W . x *)
Definition logits (W : matrix) (x : vector) : vector := map (dot x) W.

(** p = softmax(W . x) *)
Definition probabilities (W : matrix) (x : vector) : vector :=
  softmax (logits W x).

(** delta_ij *)
Definition delta (i j : nat) : R := if (i =? j)%nat then 1 else 0.

(** t = one-hot vector of y *)
Definition one_hot_vector (y : Z) : vector :=
  map (fun i => delta i (Z.to_nat y)) (seq 0 3).

(** G[i,:] = (p[i] - t[i]) . x, from p, t and x *)
Definition gradient_of (p t x : vector) : matrix :=
  map (fun i => map (fun xj => (nth i p 0 - nth i t 0) * xj) x) (seq 0 3).

Definition analytical_gradient (W : matrix) (x : vector) (y : Z) : matrix :=
  gradient_of (probabilities W x) (one_hot_vector y) x.

(** Block (i,k), entry (j,l): p[i] (delta_ik - p[k]) (x x^T)[j,l], as a tensor
    indexed [i][j][k][l], from p and x. *)
Definition hessian4_of (p x : vector) : tensor4 :=
  map (fun i =>
    map (fun xj =>
      map (fun k =>
        map (fun xl => nth i p 0 * (delta i k - nth k p 0) * (xj * xl)) x)
        (seq 0 3)) x)
    (seq 0 3).

Definition analytical_hessian4 (W : matrix) (x : vector) : tensor4 :=
  hessian4_of (probabilities W x) x.

(** The 12 x 12 matrix of the 3 x 3 blocks. *)
Definition analytical_hessian (W : matrix) (x : vector) : matrix :=
  reshape_12_12 (analytical_hessian4 W x).

(** ** Vocabulary of the properties *)

(** [H @ v] *)
Definition matvec (H : matrix) (v : vector) : vector :=
  map (fun row => dot row v) H.

(** v^T H v *)
Definition quadratic_form (H : matrix) (v : vector) : R :=
  dot v (matvec H v).

(** [H[r0 : r0 + nr, c0 : c0 + nc]] *)
Definition get_block (H : matrix) (r0 c0 nr nc : nat) : matrix :=
  map (fun row => firstn nc (skipn c0 row)) (firstn nr (skipn r0 H)).

(** [v[k : k + n]] *)
Definition get_slice (v : vector) (k n : nat) : vector :=
  firstn n (skipn k v).

Definition vadd (u v : vector) : vector := zip_with Rplus u v.

Definition within (tol : R) (a b : R) : Prop := Rabs (a - b) <= tol.

(** The concrete scenario of the specification: W = 0 (3 x 4),
    x = [1, 2, 3, 4]. *)
Definition W_zero : matrix := zeros 3 4.

Definition model_zero : LogisticRegressionModel :=
  mkModel (mkLinear (mkNNParameter W_zero None)).

Definition x_example : vector := [1; 2; 3; 4].

(** ** Cell 4: training

    [optimizer = torch.optim.SGD(model.parameters(), lr=0.01)]
    [for epoch in range(100):]
    [    for data, target in train_loader:]
    [        optimizer.zero_grad()]
    [        out = model(data)]
    [        loss = criterion(out, target)]
    [        loss.backward()]
    [        optimizer.step()] *)

Definition lr : R := 1 / 100.

(** [optimizer.step()] of plain SGD (no momentum, no weight decay): a
    parameter whose [.grad] is [None] is skipped, any other becomes
    [p.add_(p.grad, alpha=-lr)]. *)
Definition optimizer_step (model : LogisticRegressionModel) : LogisticRegressionModel :=
  match grad (weight (linear model)) with
  | None => model
  | Some G =>
      mkModel (mkLinear (mkNNParameter (madd (W_of model) (scale (- lr) G)) (Some G)))
  end.

(** The body of the inner loop ([optimizer.zero_grad()] resets the same
    [.grad] fields as [model.zero_grad()]). *)
Definition train_step (model : LogisticRegressionModel) (data : matrix)
    (target : list Z) (out : result LogisticRegressionModel) : Prop :=
  exists r,
    backward (zero_grad model) data target r /\
    out = (model' <- r ;; Ok (optimizer_step model')).

(** The loop over the batches of a loader, stopped by the first exception. *)
Inductive train (model : LogisticRegressionModel)
  : list (matrix * list Z) -> result LogisticRegressionModel -> Prop :=
| train_done :
    train model [] (Ok model)
| train_next : forall data target rest model' r,
    train_step model data target (Ok model') ->
    train model' rest r ->
    train model ((data, target) :: rest) r
| train_raise : forall data target rest e,
    train_step model data target (Raise e) ->
    train model ((data, target) :: rest) (Raise e).

(** [DataLoader(TensorDataset(x, y), batch_size=1)]: one batch, of one row
    and one label, per sample. *)
Definition batches_of (dataset : list (vector * Z)) : list (matrix * list Z) :=
  map (fun s => ([fst s], [snd s])) dataset.

(** The two loops: with [shuffle=True] every epoch goes once through the
    samples, in an order of its own. *)
Definition training (epochs : nat) (dataset : list (vector * Z))
    (model : LogisticRegressionModel) (out : result LogisticRegressionModel) : Prop :=
  exists orders : list (list (vector * Z)),
    length orders = epochs /\
    Forall (Permutation dataset) orders /\
    train model (batches_of (concat orders)) out.

(** [sum(p.numel() for p in model.parameters())] *)
Definition numel (M : matrix) : nat := length (flatten M).

Definition parameters (model : LogisticRegressionModel) : list matrix :=
  [W_of model].

Definition number_of_parameters (model : LogisticRegressionModel) : nat :=
  fold_right Nat.add 0%nat (map numel (parameters model)).

(** A sample of the iris data: 4 features and a label of {0,1,2}. *)
Definition valid_sample (s : vector * Z) : Prop :=
  length (fst s) = 4%nat /\ (0 <= snd s < 3)%Z.

(** The two loops of cell 11 on their own, from any initial tensor. *)
Definition hess2_loops (prob : vector) (data : matrix) (H0 : matrix) : result matrix :=
  for_each (seq 0 3) (fun H i =>
    for_each (seq 0 3) (fun H j =>
      xx <- matmul (T data) data ;;
      Ok (set_block H (i * 4) (j * 4)
            (scale (nth i prob 0 * (int_eq i j - nth j prob 0)) xx)))
      H)
    H0.

(** * The closed-form cells over binary64

    Cells 8 and 11 and [torch.allclose] again, now on float64 tensors: every
    arithmetic operation is the IEEE 754 operation of Rocq's primitive
    floats, rounded to nearest even, with infinities and NaN.

    [None] is an exception of the cell or a value that IEEE 754 does not
    fix: the exponential is correctly rounded by no standard, so [fexp] is
    defined at the arguments where every implementation agrees and nowhere
    else.  A matrix product adds its terms from left to right; at the tensors
    evaluated below every product of the cells has one term per entry, or
    terms that are all zero but one, so the order in which a kernel adds them
    plays no part. *)

Module Float64.

Import PrimFloat FloatOps SpecFloat.
Local Open Scope float_scope.

Definition fvector := list float.
Definition fmatrix := list (list float).

Fixpoint traverse {A B : Type} (f : A -> option B) (l : list A) : option (list B) :=
  match l with
  | [] => Some []
  | a :: l' =>
      match f a, traverse f l' with
      | Some b, Some m => Some (b :: m)
      | _, _ => None
      end
  end.

(** [exp]: exp(NaN) = NaN, exp(inf) = inf, exp(-inf) = 0, exp(0) = 1. *)
Definition fexp (x : float) : option float :=
  if is_nan x then Some nan
  else if x =? infinity then Some infinity
  else if x =? neg_infinity then Some 0
  else if x =? 0 then Some 1
  else None.

(** The maximum of a reduction: NaN as soon as an operand is NaN. *)
Definition fmax (a b : float) : float :=
  if is_nan a || is_nan b then nan else if a <? b then b else a.

Definition reduce (op : float -> float -> float) (v : fvector) : float :=
  match v with
  | [] => 0
  | a :: v' => fold_left op v' a
  end.

Definition fdot (u v : fvector) : float :=
  reduce add (zip_with mul u v).

Definition fcolumn (M : fmatrix) (j : nat) : fvector :=
  map (fun row => nth j row 0) M.

(** [M.T] *)
Definition fT (M : fmatrix) : fmatrix :=
  map (fcolumn M) (seq 0 (length (hd [] M))).

(** [A @ B] *)
Definition matmul (A B : fmatrix) : option fmatrix :=
  if forallb (fun row => (length row =? length B)%nat) A
  then Some (map (fun row => map (fun j => fdot row (fcolumn B j))
                                 (seq 0 (length (hd [] B)))) A)
  else None.

(** [model(data)] for the weight [W]: [data @ W.T]. *)
Definition forward (W data : fmatrix) : option fmatrix := matmul data (fT W).

(** [v.softmax(dim=0)]: the maximum is subtracted before the exponential,
    and the exponentials are multiplied by the reciprocal of their sum.
    (Dividing by the sum instead gives the same float64 at every tensor
    evaluated below: the exponentials there are 1, 0 or NaN.) *)
Definition softmax (v : fvector) : option fvector :=
  let mx := reduce fmax v in
  match traverse (fun a => fexp (a - mx)) v with
  | Some es => let r := 1 / reduce add es in Some (map (fun e => e * r) es)
  | None => None
  end.

(** A row of [F.one_hot(target, 3)], converted to float64 by the
    subtraction of cell 8. *)
Definition one_hot_row (t : Z) : option fvector :=
  if ((0 <=? t)%Z && (t <? 3)%Z)%bool
  then Some (map (fun c => if (Z.of_nat c =? t)%Z then 1 else 0) (seq 0 3))
  else None.

(** Cell 8:
    [g3 = ((out.softmax(dim=1) - target_onehot).T @ data).flatten().unsqueeze(1)] *)
Definition g3 (W data : fmatrix) (target : list Z) : option fmatrix :=
  match forward W data with
  | Some out =>
    match traverse softmax out, traverse one_hot_row target with
    | Some P, Some target_onehot =>
        match matmul (fT (zip_with (zip_with sub) P target_onehot)) data with
        | Some G => Some (map (fun a => [a]) (concat G))
        | None => None
        end
    | _, _ => None
    end
  | None => None
  end.

Definition set_block (H : fmatrix) (r0 c0 : nat) (B : fmatrix) : fmatrix :=
  firstn r0 H
  ++ zip_with (fun row b => set_slice row c0 b) (firstn (length B) (skipn r0 H)) B
  ++ skipn (r0 + length B) H.

(** [int(i == j)], converted to float64 by the subtraction. *)
Definition int_eq (i j : nat) : float := if (i =? j)%nat then 1 else 0.

(** Cell 11:
    [hess2[i*4:(i+1)*4, j*4:(j+1)*4] =]
    [    prob[i] * (int(i == j) - prob[j]) * (data.T @ data)],
    the product of the two 0-dimensional tensors first. *)
Definition hess2 (W data : fmatrix) : option fmatrix :=
  match forward W data with
  | Some (out0 :: _) =>
    match softmax out0, matmul (fT data) data with
    | Some prob, Some xx =>
      Some (fold_left (fun H i =>
              fold_left (fun H j =>
                set_block H (i * 4) (j * 4)
                  (map (map (mul (nth i prob 0 * (int_eq i j - nth j prob 0)))) xx))
                (seq 0 3) H)
              (seq 0 3) (repeat (repeat 0 12) 12))
    | _, _ => None
    end
  | _ => None
  end.

(** The float64 nearest to 1e-05 and to 1e-08. *)
Definition rtol : float := 0x1.4f8b588e368f1p-17.
Definition atol : float := 0x1.5798ee2308c3ap-27.

(** [torch.isclose] with [equal_nan=False]: equal, or at a finite distance
    that is at most [atol + |rtol * other|]. *)
Definition isclose (a b : float) : bool :=
  (a =? b) ||
  (is_finite (abs (a - b)) && (abs (a - b) <=? atol + abs (rtol * b))).

(** [torch.allclose(input, other)] on two tensors of one shape. *)
Definition allclose (input other : fmatrix) : bool :=
  all2 (all2 isclose) input other.

(** The number a finite float stands for, in units of 2^-k: an integer when
    [k] is large enough, and [None] otherwise or when the float is not
    finite. *)
Definition scaled (k : Z) (a : float) : option Z :=
  match Prim2SF a with
  | S754_zero _ => Some 0%Z
  | S754_finite s m e =>
      if (0 <=? e + k)%Z
      then Some ((if s then -1 else 1) * (Z.pos m * 2 ^ (e + k)))%Z
      else None
  | _ => None
  end.

Definition exact (k : Z) (M : fmatrix) : option (list (list Z)) :=
  traverse (traverse (scaled k)) M.

(** Sums without rounding, on the integers of [exact]. *)
Definition dotZ (u v : list Z) : Z :=
  fold_right Z.add 0%Z (zip_with Z.mul u v).

Definition matvecZ (H : list (list Z)) (v : list Z) : list Z :=
  map (fun row => dotZ row v) H.

(** v^T H v *)
Definition quadratic_formZ (H : list (list Z)) (v : list Z) : Z :=
  dotZ v (matvecZ H v).

(** The three blocks of 4 of a list of 12, added entry by entry. *)
Definition block_sumsZ (v : list Z) : list Z :=
  zip_with Z.add (zip_with Z.add (firstn 4 v) (firstn 4 (skipn 4 v)))
           (firstn 4 (skipn 8 v)).

(** The three 4 x 4 blocks of block row [i] of a 12 x 12 matrix, added entry
    by entry. *)
Definition block_row_sumZ (H : list (list Z)) (i : nat) : list (list Z) :=
  map block_sumsZ (firstn 4 (skipn (i * 4) H)).

(** The same sum of the three blocks of a gradient, in float64. *)
Definition block_sums (v : fvector) : fvector :=
  zip_with add (zip_with add (firstn 4 v) (firstn 4 (skipn 4 v)))
           (firstn 4 (skipn 8 v)).

(** The specification's scenario: W = 0, x = [1, 2, 3, 4]. *)
Definition W_zero : fmatrix := repeat (repeat 0 4) 3.
Definition x_example : fvector := [1; 2; 3; 4].

(** [-2^-53, -2^-52, 0, -2^-51]: about -1.1e-16, -2.2e-16, 0, -4.4e-16. *)
Definition residue : fvector := [-0x1p-53; -0x1p-52; 0; -0x1p-51].

(** The same feature vector in another unit: 2^30 [1, 2, 3, 4]. *)
Definition x_scaled : fvector := [0x1p30; 0x2p30; 0x3p30; 0x4p30].

(** A weight and a feature vector whose first logit, 2^1400, overflows. *)
Definition W_big : fmatrix := [[0x1p700; 0; 0; 0]; [0; 0; 0; 0]; [0; 0; 0; 0]].
Definition x_big : fvector := [0x1p700; 0; 0; 0].

(** A direction along which the three blocks of 4 are [-1, -1, 1, 0], 0
    and 0; it is orthogonal to [x_example] in the first block. *)
Definition v_neg : list Z := [-1; -1; 1; 0; 0; 0; 0; 0; 0; 0; 0; 0]%Z.

(** Two float64 next to the edge of the tolerance around 1. *)
Definition b_one : float := 1.
Definition a_near : float := 0x1.0000a7f09ff1ap+0.

End Float64.

(** ** Generic facts on derivatives and shapes *)

Lemma dpl_eq (f : R -> R) (x l l' : R) :
  derivable_pt_lim f x l -> l = l' -> derivable_pt_lim f x l'.
Proof. intros H <-. exact H. Qed.

Lemma dpl_ext (f g : R -> R) (x l : R) :
  (forall t, f t = g t) -> derivable_pt_lim f x l -> derivable_pt_lim g x l.
Proof.
  intros Hfg Hf eps Heps.
  destruct (Hf eps Heps) as [d Hd].
  exists d. intros h Hh Hlt.
  rewrite <- !Hfg. now apply Hd.
Qed.

Lemma list_ext_nth {A : Type} (d : A) (l m : list A) :
  length l = length m ->
  (forall i, (i < length l)%nat -> nth i l d = nth i m d) ->
  l = m.
Proof.
  intros Hlen Hnth. apply (nth_ext l m d d); [exact Hlen | exact Hnth].
Qed.

Lemma same_shape_length (A B : matrix) :
  same_shape A B -> length A = length B.
Proof. intros H. induction H; simpl; congruence. Qed.

Lemma same_shape_row (A B : matrix) (i : nat) :
  same_shape A B -> length (nth i A []) = length (nth i B []).
Proof.
  intros H. revert i.
  induction H as [|ra rb A B Hr _ IH]; intros [|i]; simpl; auto.
Qed.

Lemma same_shape_refl (A : matrix) : same_shape A A.
Proof. induction A; constructor; auto. Qed.

Lemma same_shape_sym (A B : matrix) : same_shape A B -> same_shape B A.
Proof. intros H. induction H; constructor; auto. Qed.

Lemma same_shape_trans (A B C : matrix) :
  same_shape A B -> same_shape B C -> same_shape A C.
Proof.
  intros H. revert C.
  induction H as [|ra rb A B Hr _ IH]; intros C HC; inversion HC; subst.
  - constructor.
  - constructor; [congruence | now apply IH].
Qed.

(** Two matrices of one shape with the same entries are the same matrix. *)
Lemma matrix_ext (A B : matrix) :
  same_shape A B ->
  (forall i j, (i < length A)%nat -> (j < length (nth i A []))%nat ->
     entry A i j = entry B i j) ->
  A = B.
Proof.
  intros Hs He.
  apply (list_ext_nth []).
  - now apply same_shape_length.
  - intros i Hi. apply (list_ext_nth 0).
    + now apply same_shape_row.
    + intros j Hj. exact (He i j Hi Hj).
Qed.

(** A function has at most one gradient. *)
Lemma is_gradient_unique (f : matrix -> R) (W G1 G2 : matrix) :
  is_gradient f W G1 -> is_gradient f W G2 -> G1 = G2.
Proof.
  intros [S1 D1] [S2 D2].
  apply matrix_ext.
  - eapply same_shape_trans; [apply same_shape_sym; exact S1 | exact S2].
  - intros i j Hi Hj.
    rewrite <- (same_shape_length _ _ S1) in Hi.
    rewrite <- (same_shape_row _ _ i S1) in Hj.
    exact (uniqueness_limite _ _ _ _ (D1 i j Hi Hj) (D2 i j Hi Hj)).
Qed.

Lemma is_gradient_ext (f g : matrix -> R) (W G : matrix) :
  (forall i j t, (i < length W)%nat -> (j < length (nth i W []))%nat ->
     f (set_entry W i j t) = g (set_entry W i j t)) ->
  is_gradient f W G -> is_gradient g W G.
Proof.
  intros Hfg [S D]. split; [exact S|].
  intros i j Hi Hj. unfold partial_derivative.
  eapply dpl_ext; [| exact (D i j Hi Hj)].
  intros t. now apply Hfg.
Qed.

Lemma keyed_gradients_unique (F : string -> matrix -> R) (p g1 g2 : dict matrix) :
  Forall2 (fun kv kg => fst kv = fst kg /\ is_gradient (F (fst kv)) (snd kv) (snd kg)) p g1 ->
  Forall2 (fun kv kg => fst kv = fst kg /\ is_gradient (F (fst kv)) (snd kv) (snd kg)) p g2 ->
  g1 = g2.
Proof.
  intros H1. revert g2.
  induction H1 as [|[k W] [k1 G1] p' g1' [Hk1 HG1] _ IH]; intros g2 H2;
    inversion H2 as [|? [k2 G2] ? g2' [Hk2 HG2] Hrest]; subst; [reflexivity|].
  simpl in *. subst.
  rewrite (is_gradient_unique _ _ _ _ HG1 HG2).
  now rewrite (IH _ Hrest).
Qed.

Lemma is_gradient_dict_unique (f : dict matrix -> R) (p g1 g2 : dict matrix) :
  is_gradient_dict f p g1 -> is_gradient_dict f p g2 -> g1 = g2.
Proof.
  exact (keyed_gradients_unique (fun k V => f (dict_set k V p)) p g1 g2).
Qed.

Lemma vector4_inv (v : vector) :
  length v = 4%nat -> exists a b c d, v = [a; b; c; d].
Proof.
  destruct v as [|a [|b [|c [|d [|e v]]]]]; try discriminate.
  intros _. now exists a, b, c, d.
Qed.

Lemma shape_3_4_inv (W : matrix) :
  shape 3 4 W ->
  exists r0 r1 r2, W = [r0; r1; r2] /\
    length r0 = 4%nat /\ length r1 = 4%nat /\ length r2 = 4%nat.
Proof.
  intros [Hl HF].
  destruct W as [|r0 [|r1 [|r2 [|r3 W]]]]; try discriminate.
  exists r0, r1, r2.
  inversion HF as [|? ? H0 HF1]; subst.
  inversion HF1 as [|? ? H1 HF2]; subst.
  inversion HF2 as [|? ? H2 _]; subst.
  auto.
Qed.

(** Destructs a 3 x 4 weight and a length-4 feature vector into their entries. *)
Ltac explode_shapes HW Hx :=
  let r0 := fresh "r" in let r1 := fresh "r" in let r2 := fresh "r" in
  let H0 := fresh in let H1 := fresh in let H2 := fresh in
  destruct (shape_3_4_inv _ HW) as (r0 & r1 & r2 & -> & H0 & H1 & H2);
  destruct (vector4_inv _ H0) as (?w & ?w & ?w & ?w & ->);
  destruct (vector4_inv _ H1) as (?w & ?w & ?w & ?w & ->);
  destruct (vector4_inv _ H2) as (?w & ?w & ?w & ?w & ->);
  destruct (vector4_inv _ Hx) as (?x & ?x & ?x & ?x & ->);
  clear H0 H1 H2.

(** Computes the list and index structure of a goal and leaves the real
    arithmetic as it stands. *)
Ltac crunch :=
  cbv -[Rplus Rmult Rminus Rdiv Ropp Rinv Rabs exp ln INR IZR Rle Rlt Rge Rgt Rsqr
        derivable_pt_lim Rle_dec].

(** Differentiates a term built from + - * / exp ln, instantiating the value
    of the derivative; the side conditions of / and ln are left. *)
Ltac derive :=
  lazymatch goal with
  | |- derivable_pt_lim (fun _ => ?c) _ _ => apply derivable_pt_lim_const
  | |- derivable_pt_lim (fun t => t) _ _ => apply derivable_pt_lim_id
  | |- derivable_pt_lim (fun t => @?f t + @?g t) _ _ =>
      eapply (derivable_pt_lim_plus f g); derive
  | |- derivable_pt_lim (fun t => @?f t - @?g t) _ _ =>
      eapply (derivable_pt_lim_minus f g); derive
  | |- derivable_pt_lim (fun t => @?f t * @?g t) _ _ =>
      eapply (derivable_pt_lim_mult f g); derive
  | |- derivable_pt_lim (fun t => @?f t / @?g t) _ _ =>
      eapply (derivable_pt_lim_div f g); [derive | derive | ]
  | |- derivable_pt_lim (fun t => - @?f t) _ _ =>
      eapply (derivable_pt_lim_opp f); derive
  | |- derivable_pt_lim (fun t => exp (@?f t)) _ _ =>
      eapply (derivable_pt_lim_comp f exp); [derive | apply derivable_pt_lim_exp]
  | |- derivable_pt_lim (fun t => ln (@?f t)) _ _ =>
      eapply (derivable_pt_lim_comp f ln); [derive | apply derivable_pt_lim_ln]
  end.

(** Replaces every [exp a] of the goal by a positive unknown. *)
Ltac exp_atoms :=
  repeat match goal with
  | |- context [exp ?a] =>
      let H := fresh "Hexp" in
      pose proof (exp_pos a) as H; generalize dependent (exp a); intros
  end.

Ltac exp_side := cbv beta; change (INR 1) with 1; exp_atoms; lra.

Ltac derive_to_closed_form :=
  eapply dpl_eq;
  [ derive; exp_side
  | cbv beta; change (INR 1) with 1; unfold Rsqr; field; exp_side ].

Lemma label_cases (y : Z) : (0 <= y < 3)%Z -> y = 0%Z \/ y = 1%Z \/ y = 2%Z.
Proof. lia. Qed.

Lemma loss_gradient (m : LogisticRegressionModel) (W : matrix) (x : vector) (y : Z) :
  shape 3 4 W -> length x = 4%nat -> (0 <= y < 3)%Z ->
  is_gradient
    (fun V => value_of (compute_loss m [("linear.weight"%string, V)] [x] [y]))
    W (analytical_gradient W x y).
Proof.
  intros HW Hx Hy. explode_shapes HW Hx.
  split.
  - repeat constructor.
  - intros i j Hi Hj.
    destruct i as [|[|[|i]]]; [| | | simpl in Hi; lia];
      (destruct j as [|[|[|[|j]]]]; [| | | | simpl in Hj; lia]);
      destruct (label_cases y Hy) as [-> | [-> | ->]];
      unfold partial_derivative; crunch; derive_to_closed_form.
Qed.

Lemma gradient_jacobian (W : matrix) (x : vector) (y : Z) :
  shape 3 4 W -> length x = 4%nat -> (0 <= y < 3)%Z ->
  is_jacobian (fun V => analytical_gradient V x y) W W (analytical_hessian4 W x).
Proof.
  intros HW Hx Hy. explode_shapes HW Hx.
  split.
  - repeat constructor.
  - intros i j Hi Hj.
    destruct i as [|[|[|i]]]; [| | | simpl in Hi; lia];
      (destruct j as [|[|[|[|j]]]]; [| | | | simpl in Hj; lia]);
      destruct (label_cases y Hy) as [-> | [-> | ->]];
      (split; [repeat constructor |]);
      intros k l Hk Hl;
      (destruct k as [|[|[|k]]]; [| | | simpl in Hk; lia]);
      (destruct l as [|[|[|[|l]]]]; [| | | | simpl in Hl; lia]);
      unfold partial_derivative; crunch; derive_to_closed_form.
Qed.

(** ** The notebook's closed forms are the specification's *)

Ltac open_model m :=
  let W := fresh "W" in let gr := fresh "gr" in
  destruct m as [[[W gr]]]; unfold W_of in *; simpl data_ in *; simpl weight in *;
  simpl linear in *.

(** Proves an equation of results, lists and reals entry by entry. *)
Ltac entrywise tac :=
  repeat lazymatch goal with
  | |- Ok _ = Ok _ => apply f_equal
  | |- Real _ = Real _ => apply f_equal
  | |- cons _ _ = cons _ _ => apply f_equal2
  | |- @eq (list _) nil nil => reflexivity
  | |- @eq R _ _ => tac
  end.

Lemma forward_logits (m : LogisticRegressionModel) (x : vector) :
  shape 3 4 (W_of m) -> length x = 4%nat ->
  forward m [x] = Ok [logits (W_of m) x].
Proof.
  intros HW Hx. open_model m. explode_shapes HW Hx. reflexivity.
Qed.

Lemma compute_loss_ok (m : LogisticRegressionModel) (W : matrix) (x : vector) (y : Z) :
  shape 3 4 W -> length x = 4%nat -> (0 <= y < 3)%Z ->
  compute_loss m [("linear.weight"%string, W)] [x] [y]
  = Ok (Real ((- nth (Z.to_nat y) (log_softmax (logits W x)) 0 + 0) / INR 1)).
Proof.
  intros HW Hx Hy. explode_shapes HW Hx.
  destruct (label_cases y Hy) as [-> | [-> | ->]]; reflexivity.
Qed.

(** The loss is the cross-entropy of the softmax: -log p[y]. *)
Lemma loss_is_negative_log_probability (m : LogisticRegressionModel) (W : matrix)
    (x : vector) (y : Z) :
  shape 3 4 W -> length x = 4%nat -> (0 <= y < 3)%Z ->
  compute_loss m [("linear.weight"%string, W)] [x] [y]
  = Ok (Real (- ln (nth (Z.to_nat y) (probabilities W x) 0))).
Proof.
  intros HW Hx Hy. rewrite (compute_loss_ok m W x y HW Hx Hy).
  explode_shapes HW Hx.
  destruct (label_cases y Hy) as [-> | [-> | ->]]; crunch; change (INR 1) with 1;
    entrywise ltac:(idtac);
    unfold Rdiv at 2;
    (rewrite ln_mult;
     [ rewrite ln_Rinv; [rewrite ln_exp; field | exp_side]
     | apply exp_pos
     | apply Rinv_0_lt_compat; exp_side ]).
Qed.

Lemma g3_matrix_closed_form (m : LogisticRegressionModel) (x : vector) (y : Z) :
  shape 3 4 (W_of m) -> length x = 4%nat -> (0 <= y < 3)%Z ->
  g3_matrix m [x] [y] = Ok (analytical_gradient (W_of m) x y).
Proof.
  intros HW Hx Hy. open_model m. explode_shapes HW Hx.
  destruct (label_cases y Hy) as [-> | [-> | ->]];
    crunch; entrywise ltac:(unfold Rdiv; ring).
Qed.

Lemma g3_closed_form (m : LogisticRegressionModel) (x : vector) (y : Z) :
  shape 3 4 (W_of m) -> length x = 4%nat -> (0 <= y < 3)%Z ->
  g3 m [x] [y] = Ok (unsqueeze1 (flatten (analytical_gradient (W_of m) x y))).
Proof.
  intros HW Hx Hy. unfold g3.
  now rewrite (g3_matrix_closed_form m x y HW Hx Hy).
Qed.

Lemma hess2_closed_form (m : LogisticRegressionModel) (x : vector) :
  shape 3 4 (W_of m) -> length x = 4%nat ->
  hess2 m [x] = Ok (analytical_hessian (W_of m) x).
Proof.
  intros HW Hx. open_model m. explode_shapes HW Hx.
  crunch; entrywise ltac:(unfold Rdiv; ring).
Qed.

(** ** Shapes under a change of one entry *)

Lemma update_length {A : Type} (l : list A) (k : nat) (a : A) :
  length (update l k a) = length l.
Proof.
  revert k. induction l as [|b l IH]; intros [|k]; simpl; auto.
Qed.

Lemma same_shape_update (W : matrix) (i : nat) (row : vector) :
  length row = length (nth i W []) -> same_shape W (update W i row).
Proof.
  revert i. induction W as [|r W IH]; intros [|i] Hrow; simpl in *.
  - constructor.
  - constructor.
  - constructor; [now rewrite Hrow | apply same_shape_refl].
  - constructor; [reflexivity | now apply IH].
Qed.

Lemma same_shape_set_entry (W : matrix) (i j : nat) (t : R) :
  same_shape W (set_entry W i j t).
Proof. apply same_shape_update. apply update_length. Qed.

Lemma shape_same_shape (r c : nat) (W V : matrix) :
  shape r c W -> same_shape W V -> shape r c V.
Proof.
  intros [Hl HF] HS. split.
  - rewrite <- (same_shape_length _ _ HS). exact Hl.
  - clear Hl. induction HS as [|ra rb W V Hr _ IH]; [constructor|].
    inversion HF; subst. constructor; [congruence | auto].
Qed.

(** ** Parameter sets of one key *)

Lemma is_gradient_dict_single (f : dict matrix -> R) (k : string) (W : matrix)
    (g : dict matrix) :
  is_gradient_dict f [(k, W)] g <->
  exists G, g = [(k, G)] /\ is_gradient (fun V => f [(k, V)]) W G.
Proof.
  unfold is_gradient_dict. split.
  - intros H. inversion H as [|? [k' G] ? ? [Hk HG] Hrest]; subst.
    inversion Hrest; subst. simpl in *. subst k'.
    rewrite String.eqb_refl in HG. now exists G.
  - intros (G & -> & HG). constructor; [|constructor].
    simpl. rewrite String.eqb_refl. auto.
Qed.

Lemma params_like_single (k : string) (W : matrix) (q : dict matrix) :
  params_like [(k, W)] q <-> exists V, q = [(k, V)] /\ same_shape W V.
Proof.
  unfold params_like. split.
  - intros H. inversion H as [|? [k' V] ? ? [Hk HV] Hrest]; subst.
    inversion Hrest; subst. simpl in *. subst. now exists V.
  - intros (V & -> & HV). constructor; [|constructor]. simpl. auto.
Qed.

Lemma is_hessian_dict_single (f : dict matrix -> R) (k : string) (W : matrix)
    (h : dict (dict tensor4)) :
  is_hessian_dict f [(k, W)] h <->
  exists (gradf : dict matrix -> dict matrix) (B : tensor4),
    h = [(k, [(k, B)])] /\
    (forall V, same_shape W V -> is_gradient_dict f [(k, V)] (gradf [(k, V)])) /\
    is_jacobian (fun V => item (gradf [(k, V)]) k) W W B.
Proof.
  unfold is_hessian_dict. split.
  - intros (gradf & Hg & H).
    inversion H as [|? [k1 inner] ? ? [Hk1 Hin] Hrest]; subst.
    inversion Hrest; subst. simpl in *. subst k1.
    inversion Hin as [|? [k2 B] ? ? [Hk2 HB] Hrest']; subst.
    inversion Hrest'; subst. simpl in *. subst k2.
    rewrite String.eqb_refl in HB.
    exists gradf, B. split; [reflexivity|]. split; [|exact HB].
    intros V HV. apply Hg. apply params_like_single. now exists V.
  - intros (gradf & B & -> & Hg & HB).
    exists gradf. split.
    + intros q Hq. apply params_like_single in Hq. destruct Hq as (V & -> & HV).
      now apply Hg.
    + constructor; [|constructor]. simpl. split; [reflexivity|].
      constructor; [|constructor]. simpl. rewrite String.eqb_refl. auto.
Qed.

(** ** A matrix-valued function has at most one derivative *)

Lemma tensor4_ext (W : matrix) (B1 B2 : tensor4) :
  Forall2 (fun row brow => length row = length brow) W B1 ->
  Forall2 (fun row brow => length row = length brow) W B2 ->
  (forall i j, (i < length W)%nat -> (j < length (nth i W []))%nat ->
     nth j (nth i B1 []) [] = nth j (nth i B2 []) []) ->
  B1 = B2.
Proof.
  intros H1. revert B2.
  induction H1 as [|row b1 W B1 Hr1 _ IH]; intros B2 H2 He;
    inversion H2 as [|? b2 ? B2' Hr2 H2']; subst; [reflexivity|].
  f_equal.
  - apply (list_ext_nth []); [exact (eq_trans (eq_sym Hr1) Hr2)|].
    intros j Hj. apply (He 0%nat j); simpl; [lia | exact (eq_ind_r (fun n => (j < n)%nat) Hj Hr1)].
  - apply IH; [exact H2'|].
    intros i j Hi Hj. apply (He (S i) j); simpl; [lia | exact Hj].
Qed.

Lemma is_jacobian_unique (G1 G2 : matrix -> matrix) (W1 W2 : matrix) (B1 B2 : tensor4) :
  (forall a b t, (a < length W2)%nat -> (b < length (nth a W2 []))%nat ->
     G1 (set_entry W2 a b t) = G2 (set_entry W2 a b t)) ->
  is_jacobian G1 W1 W2 B1 -> is_jacobian G2 W1 W2 B2 -> B1 = B2.
Proof.
  intros HG [S1 D1] [S2 D2].
  apply (tensor4_ext W1); [exact S1 | exact S2 |].
  intros i j Hi Hj.
  apply (is_gradient_unique (fun V => entry (G2 V) i j) W2); [|now apply D2].
  apply (is_gradient_ext (fun V => entry (G1 V) i j)); [|now apply D1].
  intros a b t Ha Hb. now rewrite HG.
Qed.

(** ** What the three gradient routines and the two Hessian routines return *)

Lemma cat_flatten_single (k : string) (G : matrix) :
  cat_flatten [(k, G)] = unsqueeze1 (flatten G).
Proof.
  unfold cat_flatten, values. cbn [map snd concat]. now rewrite app_nil_r.
Qed.

Lemma read_grads_after_backward (m : LogisticRegressionModel) (G : matrix) :
  read_grads (with_grad (zero_grad m)
                (accumulate (grad (weight (linear (zero_grad m)))) G))
  = Ok (unsqueeze1 (flatten G)).
Proof.
  unfold read_grads, zero_grad, with_grad, accumulate.
  cbn [grad weight linear concat]. now rewrite app_nil_r.
Qed.

Section OneSample.

(** A model whose weight is 3 x 4, and one sample (x, y) of the data set. *)
Variable m : LogisticRegressionModel.
Variable x : vector.
Variable y : Z.
Hypothesis HW : shape 3 4 (W_of m).
Hypothesis Hx : length x = 4%nat.
Hypothesis Hy : (0 <= y < 3)%Z.

Lemma compute_loss_named :
  exists v, compute_loss m (named_parameters m) [x] [y] = Ok (Real v).
Proof.
  eexists. unfold named_parameters. now apply compute_loss_ok.
Qed.

Lemma g1_characterised (r : result matrix) :
  g1 m (named_parameters m) [x] [y] r <->
  r = Ok (unsqueeze1 (flatten (analytical_gradient (W_of m) x y))).
Proof.
  destruct compute_loss_named as [v Hv].
  pose proof (loss_gradient m (W_of m) x y HW Hx Hy) as HG.
  unfold g1, named_parameters in *. split.
  - intros (r0 & Hrun & ->).
    inversion Hrun as [e He | v' g Hv' Hg | Hn]; subst; [congruence | | congruence].
    apply is_gradient_dict_single in Hg. destruct Hg as (G & -> & HG').
    rewrite (is_gradient_unique _ _ _ _ HG' HG).
    unfold bind. now rewrite cat_flatten_single.
  - intros ->.
    exists (Ok [("linear.weight"%string, analytical_gradient (W_of m) x y)]). split.
    + apply (func_grad_ok _ _ v); [exact Hv|].
      apply is_gradient_dict_single. eexists. split; [reflexivity | exact HG].
    + unfold bind. now rewrite cat_flatten_single.
Qed.

Lemma g2_characterised (r : result matrix) :
  g2 m [x] [y] r <->
  r = Ok (unsqueeze1 (flatten (analytical_gradient (W_of m) x y))).
Proof.
  destruct compute_loss_named as [v Hv].
  pose proof (loss_gradient m (W_of m) x y HW Hx Hy) as HG.
  assert (Hloss : model_loss (zero_grad m) [x] [y] = Ok (Real v)) by exact Hv.
  unfold g2. split.
  - intros (r0 & Hrun & ->).
    inversion Hrun as [e He | v' G Hv' HG' | Hn]; subst; [congruence | | congruence].
    rewrite (is_gradient_unique _ _ _ _ HG' HG).
    unfold bind. apply read_grads_after_backward.
  - intros ->. eexists. split.
    + apply (backward_ok _ _ _ v (analytical_gradient (W_of m) x y)); [exact Hloss|].
      exact HG.
    + unfold bind. symmetry. apply read_grads_after_backward.
Qed.

(** Wherever the oracle's gradient field is a gradient, it is the closed
    form. *)
Lemma gradf_closed_form (gradf : dict matrix -> dict matrix) (V : matrix) :
  shape 3 4 V ->
  is_gradient_dict (fun q => value_of (compute_loss m q [x] [y]))
                   [("linear.weight"%string, V)]
                   (gradf [("linear.weight"%string, V)]) ->
  item (gradf [("linear.weight"%string, V)]) "linear.weight"
  = analytical_gradient V x y.
Proof.
  intros HV Hg.
  apply is_gradient_dict_single in Hg. destruct Hg as (G & -> & HG).
  unfold item. simpl.
  exact (is_gradient_unique _ _ _ _ HG (loss_gradient m V x y HV Hx Hy)).
Qed.

Lemma hess1_characterised (r : result matrix) :
  hess1 m (named_parameters m) [x] [y] r <->
  r = Ok (analytical_hessian (W_of m) x).
Proof.
  destruct compute_loss_named as [v Hv].
  pose proof (gradient_jacobian (W_of m) x y HW Hx Hy) as HJ.
  unfold hess1, named_parameters in *. split.
  - intros (r0 & Hrun & ->).
    inversion Hrun as [e He | v' h Hv' Hh | Hn]; subst; [congruence | | congruence].
    apply is_hessian_dict_single in Hh.
    destruct Hh as (gradf & B & -> & Hg & HB).
    unfold bind, getitem. simpl. unfold analytical_hessian. do 2 f_equal.
    apply (is_jacobian_unique _ _ _ _ _ _ ) with (3 := HJ) (2 := HB).
    intros a b t Ha Hb.
    apply (gradf_closed_form gradf).
    + apply (shape_same_shape 3 4 (W_of m)); [exact HW | apply same_shape_set_entry].
    + apply Hg. apply same_shape_set_entry.
  - intros ->.
    exists (Ok [("linear.weight"%string,
                 [("linear.weight"%string, analytical_hessian4 (W_of m) x)])]). split.
    + apply (func_hessian_ok _ _ v); [exact Hv|].
      apply is_hessian_dict_single.
      exists (fun q => [("linear.weight"%string,
                         analytical_gradient (item q "linear.weight") x y)]).
      eexists. split; [reflexivity|]. split.
      * intros V HV. apply is_gradient_dict_single. eexists. split; [reflexivity|].
        apply loss_gradient; [|exact Hx | exact Hy].
        apply (shape_same_shape 3 4 (W_of m)); assumption.
      * exact HJ.
    + reflexivity.
Qed.

End OneSample.

(** ** The loss evaluation, label by label *)

Lemma compute_loss_by_label (m : LogisticRegressionModel) (W : matrix) (x : vector)
    (y : Z) :
  shape 3 4 W -> length x = 4%nat ->
  compute_loss m [("linear.weight"%string, W)] [x] [y]
  = if (y =? ignore_index)%Z then Ok NaN
    else if ((0 <=? y)%Z && (y <? 3)%Z)%bool
         then Ok (Real ((- nth (Z.to_nat y) (log_softmax (logits W x)) 0 + 0) / INR 1))
         else Raise IndexError.
Proof.
  intros HW Hx. explode_shapes HW Hx.
  unfold compute_loss, functional_call, criterion, nll_loss, F_linear, matmul.
  cbn [lookup String.eqb Ascii.eqb Bool.eqb bind map length Nat.eqb forallb rows T cols hd
       seq andb nll_terms column nth logits].
  destruct (y =? ignore_index)%Z; [reflexivity|].
  cbn [log_softmax map length Z.of_nat Pos.of_succ_nat Pos.succ].
  destruct ((0 <=? y)%Z && (y <? 3)%Z)%bool; reflexivity.
Qed.

(** ** Softmax lands on the open simplex *)

Lemma softmax3_simplex (l0 l1 l2 : R) :
  exists p0 p1 p2,
    softmax [l0; l1; l2] = [p0; p1; p2] /\
    0 < p0 /\ 0 < p1 /\ 0 < p2 /\ p0 + p1 + p2 = 1.
Proof.
  do 3 eexists. split; [reflexivity|].
  cbn [map sum fold_right].
  pose proof (exp_pos l0). pose proof (exp_pos l1). pose proof (exp_pos l2).
  assert (0 < exp l0 + (exp l1 + (exp l2 + 0))) by lra.
  repeat split; try (apply Rdiv_lt_0_compat; assumption).
  field. lra.
Qed.

Lemma probabilities_simplex (W : matrix) (x : vector) :
  shape 3 4 W ->
  exists p0 p1 p2,
    probabilities W x = [p0; p1; p2] /\
    0 < p0 /\ 0 < p1 /\ 0 < p2 /\ p0 + p1 + p2 = 1.
Proof.
  intros HW. destruct (shape_3_4_inv _ HW) as (r0 & r1 & r2 & -> & _).
  apply softmax3_simplex.
Qed.

(** ** Algebra of the closed forms, for any point p of the simplex *)

Lemma vector12_inv (v : vector) :
  length v = 12%nat ->
  exists a0 a1 a2 a3 b0 b1 b2 b3 c0 c1 c2 c3,
    v = [a0; a1; a2; a3; b0; b1; b2; b3; c0; c1; c2; c3].
Proof.
  intros H.
  do 12 (destruct v as [|? v]; [discriminate|]).
  destruct v; [|discriminate].
  now do 12 eexists.
Qed.

Lemma flatten_unsqueeze1 (v : vector) : flatten (unsqueeze1 v) = v.
Proof.
  unfold flatten, unsqueeze1. induction v as [|a v IH]; simpl; [reflexivity|].
  now rewrite IH.
Qed.

Section Simplex.

(** Class probabilities: non-negative, of sum 1; and a feature vector. *)
Variables p0 p1 p2 : R.
Variable x : vector.
Hypothesis Hp0 : 0 <= p0.
Hypothesis Hp1 : 0 <= p1.
Hypothesis Hp2 : 0 <= p2.
Hypothesis Hsum : p0 + p1 + p2 = 1.
Hypothesis Hx : length x = 4%nat.

Let H := reshape_12_12 (hessian4_of [p0; p1; p2] x).

Lemma hessian_of_symmetric : T H = H.
Proof using Hx.
  subst H. destruct (vector4_inv _ Hx) as (x0 & x1 & x2 & x3 & ->).
  crunch. entrywise ltac:(ring).
Qed.

(** The variance of s under p, written as a sum of squares. *)
Lemma weighted_variance_nonneg (s0 s1 s2 : R) :
  0 <= p0 * s0 * s0 + p1 * s1 * s1 + p2 * s2 * s2
       - (p0 * s0 + p1 * s1 + p2 * s2) * (p0 * s0 + p1 * s1 + p2 * s2).
Proof using Hp0 Hp1 Hp2 Hsum.
  replace (p0 * s0 * s0 + p1 * s1 * s1 + p2 * s2 * s2
           - (p0 * s0 + p1 * s1 + p2 * s2) * (p0 * s0 + p1 * s1 + p2 * s2))
    with (p0 * p1 * ((s0 - s1) * (s0 - s1)) + p0 * p2 * ((s0 - s2) * (s0 - s2))
          + p1 * p2 * ((s1 - s2) * (s1 - s2))).
  - pose proof (Rle_0_sqr (s0 - s1)). pose proof (Rle_0_sqr (s0 - s2)).
    pose proof (Rle_0_sqr (s1 - s2)). unfold Rsqr in *.
    apply Rplus_le_le_0_compat; [apply Rplus_le_le_0_compat|];
      (apply Rmult_le_pos; [apply Rmult_le_pos; assumption | assumption]).
  - assert (E : p2 = 1 - p0 - p1) by lra. rewrite E. ring.
Qed.

(** v^T H v is the variance under p of the three numbers x . v_i. *)
Lemma hessian_of_psd (v : vector) :
  length v = 12%nat -> 0 <= quadratic_form H v.
Proof using Hp0 Hp1 Hp2 Hsum Hx.
  intros Hv. subst H.
  destruct (vector4_inv _ Hx) as (x0 & x1 & x2 & x3 & ->).
  destruct (vector12_inv _ Hv)
    as (a0 & a1 & a2 & a3 & b0 & b1 & b2 & b3 & c0 & c1 & c2 & c3 & ->).
  pose proof (weighted_variance_nonneg
                (x0 * a0 + x1 * a1 + x2 * a2 + x3 * a3)
                (x0 * b0 + x1 * b1 + x2 * b2 + x3 * b3)
                (x0 * c0 + x1 * c1 + x2 * c2 + x3 * c3)) as Hvar.
  crunch.
  eapply Rle_trans; [exact Hvar|]. apply Req_le. ring.
Qed.

Lemma hessian_of_block_sums (i : nat) :
  (i < 3)%nat ->
  madd (madd (get_block H (i * 4) 0 4 4) (get_block H (i * 4) 4 4 4))
       (get_block H (i * 4) 8 4 4)
  = zeros 4 4.
Proof using Hsum Hx.
  intros Hi. subst H.
  destruct (vector4_inv _ Hx) as (x0 & x1 & x2 & x3 & ->).
  assert (E : p2 = 1 - p0 - p1) by lra. rewrite E.
  destruct i as [|[|[|i]]]; [| | | lia]; crunch; entrywise ltac:(ring).
Qed.

Lemma hessian_of_kernel (u : vector) :
  length u = 4%nat -> matvec H (u ++ u ++ u) = repeat 0 12.
Proof using Hsum Hx.
  intros Hu. subst H.
  destruct (vector4_inv _ Hx) as (x0 & x1 & x2 & x3 & ->).
  destruct (vector4_inv _ Hu) as (u0 & u1 & u2 & u3 & ->).
  assert (E : p2 = 1 - p0 - p1) by lra. rewrite E.
  crunch; entrywise ltac:(ring).
Qed.

Lemma gradient_of_blocks_cancel (y : Z) :
  (0 <= y < 3)%Z ->
  let v := flatten (gradient_of [p0; p1; p2] (one_hot_vector y) x) in
  vadd (vadd (get_slice v 0 4) (get_slice v 4 4)) (get_slice v 8 4) = repeat 0 4.
Proof using Hsum Hx.
  intros Hy.
  destruct (vector4_inv _ Hx) as (x0 & x1 & x2 & x3 & ->).
  assert (E : p2 = 1 - p0 - p1) by lra. rewrite E.
  destruct (label_cases y Hy) as [-> | [-> | ->]]; crunch; entrywise ltac:(ring).
Qed.

End Simplex.

(** ** The concrete scenario *)

Lemma model_zero_shape : shape 3 4 (W_of model_zero).
Proof. split; [reflexivity | repeat constructor]. Qed.

Lemma probabilities_zero :
  probabilities W_zero x_example = [1 / 3; 1 / 3; 1 / 3].
Proof.
  crunch.
  replace (1 * 0 + (2 * 0 + (3 * 0 + (4 * 0 + 0)))) with 0 by ring.
  rewrite exp_0. entrywise ltac:(field).
Qed.

Lemma within_intro (tol a b : R) :
  - tol <= a - b <= tol -> within tol a b.
Proof. intros H. unfold within. now apply Rabs_le. Qed.

(** ** An exception of the forward evaluation is the outcome of the call *)





Lemma analytical_gradient_flat_length (W : matrix) (x : vector) (y : Z) :
  length x = 4%nat ->
  length (unsqueeze1 (flatten (analytical_gradient W x y))) = 12%nat.
Proof.
  intros Hx. destruct (vector4_inv _ Hx) as (x0 & x1 & x2 & x3 & ->). reflexivity.
Qed.

Lemma analytical_hessian_length (W : matrix) (x : vector) :
  length x = 4%nat -> shape 12 12 (analytical_hessian W x).
Proof.
  intros Hx. destruct (vector4_inv _ Hx) as (x0 & x1 & x2 & x3 & ->).
  split; [reflexivity | repeat constructor].
Qed.

(** ** binary64: a NaN is close to nothing *)

Lemma float64_eqb_nan_r (a : PrimFloat.float) :
  PrimFloat.eqb a PrimFloat.nan = false.
Proof.
  rewrite FloatAxioms.eqb_spec.
  change (FloatOps.Prim2SF PrimFloat.nan) with SpecFloat.S754_nan.
  now destruct (FloatOps.Prim2SF a).
Qed.

Lemma float64_sub_nan_r (a : PrimFloat.float) :
  FloatOps.Prim2SF (PrimFloat.sub a PrimFloat.nan) = SpecFloat.S754_nan.
Proof.
  rewrite FloatAxioms.sub_spec.
  change (FloatOps.Prim2SF PrimFloat.nan) with SpecFloat.S754_nan.
  now destruct (FloatOps.Prim2SF a).
Qed.

Lemma float64_isclose_nan (a : PrimFloat.float) :
  Float64.isclose a PrimFloat.nan = false.
Proof.
  unfold Float64.isclose, PrimFloat.is_finite, PrimFloat.is_nan.
  rewrite float64_eqb_nan_r.
  rewrite (FloatAxioms.eqb_spec (PrimFloat.abs (PrimFloat.sub a PrimFloat.nan))).
  rewrite FloatAxioms.abs_spec, float64_sub_nan_r.
  reflexivity.
Qed.

Lemma float64_allclose_nan (g : Float64.fmatrix) (rest : Float64.fvector)
    (G : Float64.fmatrix) :
  Float64.allclose g ((PrimFloat.nan :: rest) :: G) = false.
Proof.
  unfold Float64.allclose.
  destruct g as [|[|a r] g]; cbn [all2]; try reflexivity.
  now rewrite float64_isclose_nan.
Qed.

(** ** The properties *)

(** C1, as the specification states it, fails on the float64 code.  At
    W[0][0] = x[0] = 2^700 the first logit is 2^1400, which overflows to inf;
    the softmax of cell 8 is then NaN and so are the 12 entries of [g3].  No
    tensor at all is [allclose] to it, so neither is whatever
    [torch.func.grad] returns there. *)
Lemma float64_g3_overflow_is_close_to_nothing :
  exists G,
    Float64.g3 Float64.W_big [Float64.x_big] [0%Z] = Some G /\
    G = repeat [PrimFloat.nan] 12 /\
    forall g, Float64.allclose g G = false.
Proof.
  eexists. split; [vm_compute; reflexivity|].
  split; [reflexivity|].
  intros g. apply float64_allclose_nan.
Qed.

(** C1, amended.  In exact arithmetic, for every 3 x 4 weight, length-4
    feature vector x and label y of {0,1,2}: the matrix of cell 8 has the
    rows (p[i] - t[i]) . x; it is the gradient of the loss of cell 6, entry
    (i, j) being the partial derivative of [compute_loss] along W[i][j]; [g3]
    is its row-major flattening, 12 entries; and that vector is the one
    outcome of [torch.func.grad], specified as returning the gradient.  The
    two agree exactly there, with no tolerance. *)
Theorem autodiff_gradient_matches_analytical
    (m : LogisticRegressionModel) (x : vector) (y : Z) :
  shape 3 4 (W_of m) -> length x = 4%nat -> (0 <= y < 3)%Z ->
  exists G,
    g3_matrix m [x] [y] = Ok G /\
    G = analytical_gradient (W_of m) x y /\
    is_gradient
      (fun V => value_of (compute_loss m [("linear.weight"%string, V)] [x] [y]))
      (W_of m) G /\
    g3 m [x] [y] = Ok (unsqueeze1 (flatten G)) /\
    length (unsqueeze1 (flatten G)) = 12%nat /\
    (forall r, g1 m (named_parameters m) [x] [y] r <->
               r = Ok (unsqueeze1 (flatten G))).
Proof.
  intros HW Hx Hy. eexists.
  split; [now apply g3_matrix_closed_form|].
  split; [reflexivity|].
  split; [now apply loss_gradient|].
  split; [now apply g3_closed_form|].
  split; [now apply analytical_gradient_flat_length|].
  intros r. now apply g1_characterised.
Qed.

Lemma autodiff_gradient_matches_analytical_witness :
  shape 3 4 (W_of model_zero) /\ length x_example = 4%nat /\ (0 <= 0 < 3)%Z /\
  exists G,
    g3_matrix model_zero [x_example] [0%Z] = Ok G /\
    is_gradient
      (fun V => value_of (compute_loss model_zero [("linear.weight"%string, V)]
                                       [x_example] [0%Z]))
      (W_of model_zero) G.
Proof.
  assert (HW : shape 3 4 (W_of model_zero))
    by (split; [reflexivity | repeat constructor]).
  assert (Hx : length x_example = 4%nat) by reflexivity.
  assert (Hy : (0 <= 0 < 3)%Z) by lia.
  split; [exact HW|]. split; [exact Hx|]. split; [exact Hy|].
  destruct (autodiff_gradient_matches_analytical model_zero x_example 0%Z HW Hx Hy)
    as (G & HG & _ & Hd & _).
  exists G. split; [exact HG | exact Hd].
Defined.

(** C2, as the specification states it, fails on the float64 code.  At
    W[0][0] = x[0] = 2^700 the softmax of cell 11 is NaN, and so are the
    144 entries of [hess2]: no tensor at all is [allclose] to it, so neither
    is whatever [torch.func.hessian] returns there. *)
Lemma float64_hess2_overflow_is_close_to_nothing :
  exists H,
    Float64.hess2 Float64.W_big [Float64.x_big] = Some H /\
    H = repeat (repeat PrimFloat.nan 12) 12 /\
    forall h, Float64.allclose h H = false.
Proof.
  eexists. split; [vm_compute; reflexivity|].
  split; [reflexivity|].
  intros h. apply float64_allclose_nan.
Qed.

(** C2, amended.  In exact arithmetic, for every 3 x 4 weight and length-4
    x, and whatever the label y of {0,1,2}: [hess2], which does not read y, is
    the 12 x 12 matrix of the blocks p[i] (delta_ij - p[j]) (x x^T); it is the
    derivative of the gradient of cell 8 taken as a function of the weight,
    row 4 i + j holding the partial derivatives of the gradient's entry
    (i, j); and it is the one outcome of [torch.func.hessian], specified as
    returning that derivative.  The two agree exactly there, with no
    tolerance. *)
Theorem autodiff_hessian_matches_analytical
    (m : LogisticRegressionModel) (x : vector) (y : Z) :
  shape 3 4 (W_of m) -> length x = 4%nat -> (0 <= y < 3)%Z ->
  exists B,
    hess2 m [x] = Ok (reshape_12_12 B) /\
    reshape_12_12 B = analytical_hessian (W_of m) x /\
    shape 12 12 (reshape_12_12 B) /\
    (forall V, shape 3 4 V ->
       g3_matrix (with_weight m V) [x] [y] = Ok (analytical_gradient V x y)) /\
    is_jacobian (fun V => analytical_gradient V x y) (W_of m) (W_of m) B /\
    (forall r, hess1 m (named_parameters m) [x] [y] r <->
               r = Ok (reshape_12_12 B)).
Proof.
  intros HW Hx Hy. exists (analytical_hessian4 (W_of m) x).
  split; [now apply hess2_closed_form|].
  split; [reflexivity|].
  split; [now apply analytical_hessian_length|].
  split; [intros V HV; now apply (g3_matrix_closed_form (with_weight m V))|].
  split; [now apply gradient_jacobian|].
  intros r. now apply hess1_characterised.
Qed.

Lemma autodiff_hessian_matches_analytical_witness :
  shape 3 4 (W_of model_zero) /\ length x_example = 4%nat /\ (0 <= 2 < 3)%Z /\
  exists B,
    hess2 model_zero [x_example] = Ok (reshape_12_12 B) /\
    is_jacobian (fun V => analytical_gradient V x_example 2)
                (W_of model_zero) (W_of model_zero) B.
Proof.
  assert (HW : shape 3 4 (W_of model_zero))
    by (split; [reflexivity | repeat constructor]).
  assert (Hx : length x_example = 4%nat) by reflexivity.
  assert (Hy : (0 <= 2 < 3)%Z) by lia.
  split; [exact HW|]. split; [exact Hx|]. split; [exact Hy|].
  destruct (autodiff_hessian_matches_analytical model_zero x_example 2%Z HW Hx Hy)
    as (B & HB & _ & _ & _ & HJ & _).
  exists B. split; [exact HB | exact HJ].
Defined.

(** C4.  For every 3 x 4 weight and length-4 x, the notebook's [hess2] is the
    12 x 12 matrix of the blocks p[i] (delta_ij - p[j]) (x x^T) and equals its
    transpose. *)
Theorem analytical_hessian_symmetric (m : LogisticRegressionModel) (x : vector) :
  shape 3 4 (W_of m) -> length x = 4%nat ->
  exists H,
    hess2 m [x] = Ok H /\ H = analytical_hessian (W_of m) x /\ T H = H.
Proof.
  intros HW Hx. eexists. split; [now apply hess2_closed_form|].
  split; [reflexivity|].
  unfold analytical_hessian, analytical_hessian4.
  destruct (probabilities_simplex (W_of m) x HW) as (p0 & p1 & p2 & -> & _).
  now apply hessian_of_symmetric.
Qed.

Lemma analytical_hessian_symmetric_witness :
  shape 3 4 (W_of model_zero) /\ length x_example = 4%nat /\
  exists H, hess2 model_zero [x_example] = Ok H /\
            H = analytical_hessian (W_of model_zero) x_example /\ T H = H.
Proof.
  assert (HW : shape 3 4 (W_of model_zero))
    by (split; [reflexivity | repeat constructor]).
  assert (Hx : length x_example = 4%nat) by reflexivity.
  split; [exact HW|]. split; [exact Hx|].
  exact (analytical_hessian_symmetric model_zero x_example HW Hx).
Defined.

(** C5, as the specification states it, fails on the float64 code.  At the
    specification's own scenario, W = 0 and x = [1,2,3,4], every entry of
    [hess2] is rounded on its own; in units of 2^-60 the entries are the
    integers Hz, and along v = (-1,-1,1,0,...,0) the quadratic form is
    v^T H v = -352 . 2^-60, a negative number.  With x = 2^30 [1,2,3,4] the
    entries of [hess2] are these integers themselves: v^T H v = -352 with
    v^T v = 3, so the least eigenvalue is at most -352/3, far below -1e-8. *)
Lemma float64_hess2_not_positive_semidefinite :
  exists H H' Hz,
    Float64.hess2 Float64.W_zero [Float64.x_example] = Some H /\
    Float64.exact 60 H = Some Hz /\
    Float64.hess2 Float64.W_zero [Float64.x_scaled] = Some H' /\
    Float64.exact 0 H' = Some Hz /\
    Float64.quadratic_formZ Hz Float64.v_neg = (-352)%Z /\
    Float64.dotZ Float64.v_neg Float64.v_neg = 3%Z /\
    (100000000 * Float64.quadratic_formZ Hz Float64.v_neg
     < - Float64.dotZ Float64.v_neg Float64.v_neg)%Z.
Proof.
  do 3 eexists.
  split; [vm_compute; reflexivity|].
  split; [vm_compute; reflexivity|].
  split; [vm_compute; reflexivity|].
  split; [vm_compute; reflexivity|].
  split; [vm_compute; reflexivity|].
  split; vm_compute; reflexivity.
Qed.

(** C5, amended.  In exact arithmetic, for every 3 x 4 weight and length-4
    x, the notebook's [hess2] is positive semi-definite: v^T H v >= 0 for
    every v of length 12. *)
Theorem analytical_hessian_positive_semidefinite
    (m : LogisticRegressionModel) (x : vector) :
  shape 3 4 (W_of m) -> length x = 4%nat ->
  exists H,
    hess2 m [x] = Ok H /\
    forall v, length v = 12%nat -> 0 <= quadratic_form H v.
Proof.
  intros HW Hx. eexists. split; [now apply hess2_closed_form|].
  intros v Hv.
  unfold analytical_hessian, analytical_hessian4.
  destruct (probabilities_simplex (W_of m) x HW)
    as (p0 & p1 & p2 & -> & H0 & H1 & H2 & Hs).
  apply hessian_of_psd; auto; lra.
Qed.

Lemma analytical_hessian_positive_semidefinite_witness :
  shape 3 4 (W_of model_zero) /\ length x_example = 4%nat /\
  exists H, hess2 model_zero [x_example] = Ok H /\
            forall v, length v = 12%nat -> 0 <= quadratic_form H v.
Proof.
  assert (HW : shape 3 4 (W_of model_zero))
    by (split; [reflexivity | repeat constructor]).
  assert (Hx : length x_example = 4%nat) by reflexivity.
  split; [exact HW|]. split; [exact Hx|].
  exact (analytical_hessian_positive_semidefinite model_zero x_example HW Hx).
Defined.

(** C6.  With W the 3 x 4 zero matrix, x = [1,2,3,4] and y = 0 the softmax of
    the model's output is [1/3,1/3,1/3] and the rows of the notebook's
    analytical gradient are within 1e-3 of [-0.667,-1.333,-2.0,-2.667] (class
    0) and of [0.333,0.667,1.0,1.333] (classes 1 and 2). *)
Theorem zero_weight_scenario_gradient :
  (out <- forward model_zero [x_example] ;; Ok (softmax_rows out))
  = Ok [[1 / 3; 1 / 3; 1 / 3]] /\
  exists G,
    g3_matrix model_zero [x_example] [0%Z] = Ok G /\
    g3 model_zero [x_example] [0%Z] = Ok (unsqueeze1 (flatten G)) /\
    Forall2 (within (1 / 1000)) (nth 0 G [])
            [- 667 / 1000; - 1333 / 1000; - 2; - 2667 / 1000] /\
    Forall2 (within (1 / 1000)) (nth 1 G [])
            [333 / 1000; 667 / 1000; 1; 1333 / 1000] /\
    Forall2 (within (1 / 1000)) (nth 2 G [])
            [333 / 1000; 667 / 1000; 1; 1333 / 1000].
Proof.
  pose proof model_zero_shape as HW.
  assert (Hx : length x_example = 4%nat) by reflexivity.
  assert (Hy : (0 <= 0 < 3)%Z) by lia.
  split.
  - rewrite (forward_logits model_zero x_example HW Hx).
    unfold bind, softmax_rows. cbn [map].
    change (softmax (logits (W_of model_zero) x_example))
      with (probabilities W_zero x_example).
    now rewrite probabilities_zero.
  - eexists. split; [exact (g3_matrix_closed_form _ _ _ HW Hx Hy)|].
    split; [exact (g3_closed_form _ _ _ HW Hx Hy)|].
    unfold analytical_gradient.
    change (W_of model_zero) with W_zero. rewrite probabilities_zero.
    crunch.
    repeat lazymatch goal with
           | |- _ /\ _ => split
           | |- Forall2 _ (_ :: _) (_ :: _) => apply Forall2_cons
           | |- Forall2 _ [] [] => apply Forall2_nil
           end; apply Rabs_le; lra.
Qed.




(** C9, as the specification states it, fails on the float64 code, at the
    specification's own scenario W = 0, x = [1,2,3,4], y = 0.  The softmax is
    the float64 next to 1/3, three times; 1/3 - 1 and the products by 3 are
    rounded; and the three blocks of [g3] add up, with or without rounding of
    the two additions, to [-2^-53, -2^-52, 0, -2^-51], not to the zero
    vector. *)
Lemma float64_g3_blocks_do_not_cancel :
  exists g gz,
    Float64.g3 Float64.W_zero [Float64.x_example] [0%Z] = Some g /\
    Float64.exact 54 g = Some gz /\
    Float64.block_sumsZ (concat gz) = [-2; -4; 0; -8]%Z /\
    Float64.block_sums (concat g) = Float64.residue.
Proof.
  do 2 eexists.
  split; [vm_compute; reflexivity|].
  split; [vm_compute; reflexivity|].
  split; vm_compute; reflexivity.
Qed.

(** C9, amended.  In exact arithmetic, for every 3 x 4 weight, length-4 x
    and label y of {0,1,2}, the three blocks of 4 entries of the notebook's
    analytical gradient add up, entry by entry, to the zero vector. *)
Theorem analytical_gradient_blocks_sum_to_zero
    (m : LogisticRegressionModel) (x : vector) (y : Z) :
  shape 3 4 (W_of m) -> length x = 4%nat -> (0 <= y < 3)%Z ->
  exists g,
    g3 m [x] [y] = Ok g /\
    vadd (vadd (get_slice (flatten g) 0 4) (get_slice (flatten g) 4 4))
         (get_slice (flatten g) 8 4)
    = repeat 0 4.
Proof.
  intros HW Hx Hy. eexists. split; [now apply g3_closed_form|].
  rewrite flatten_unsqueeze1. unfold analytical_gradient.
  destruct (probabilities_simplex (W_of m) x HW) as (p0 & p1 & p2 & -> & _ & _ & _ & Hs).
  now apply gradient_of_blocks_cancel.
Qed.

Lemma analytical_gradient_blocks_sum_to_zero_witness :
  shape 3 4 (W_of model_zero) /\ length x_example = 4%nat /\ (0 <= 0 < 3)%Z /\
  exists g,
    g3 model_zero [x_example] [0%Z] = Ok g /\
    vadd (vadd (get_slice (flatten g) 0 4) (get_slice (flatten g) 4 4))
         (get_slice (flatten g) 8 4)
    = repeat 0 4.
Proof.
  assert (HW : shape 3 4 (W_of model_zero))
    by (split; [reflexivity | repeat constructor]).
  assert (Hx : length x_example = 4%nat) by reflexivity.
  assert (Hy : (0 <= 0 < 3)%Z) by lia.
  split; [exact HW|]. split; [exact Hx|]. split; [exact Hy|].
  exact (analytical_gradient_blocks_sum_to_zero model_zero x_example 0%Z HW Hx Hy).
Defined.

(** C10, as the specification states it, fails on the float64 code, at the
    specification's own scenario W = 0, x = [1,2,3,4].  Every entry of
    [hess2] is rounded on its own; in units of 2^-60 the three blocks of the
    first block row add up to a matrix with entries 32 to 512, not to the
    zero matrix, and [hess2] sends (u, u, u) with u = [1,1,1,1] to a vector
    with entries 352 to 1408, not to zero. *)
Lemma float64_hess2_block_rows_do_not_cancel :
  exists H Hz,
    Float64.hess2 Float64.W_zero [Float64.x_example] = Some H /\
    Float64.exact 60 H = Some Hz /\
    Float64.block_row_sumZ Hz 0
    = [[32; 64; 128; 128]; [64; 128; 256; 256];
       [128; 256; 0; 512]; [128; 256; 512; 512]]%Z /\
    Float64.matvecZ Hz (repeat 1%Z 12)
    = [352; 704; 896; 1408; 352; 704; 896; 1408; 352; 704; 896; 1408]%Z.
Proof.
  do 2 eexists.
  split; [vm_compute; reflexivity|].
  split; [vm_compute; reflexivity|].
  split; vm_compute; reflexivity.
Qed.

(** C10, amended.  In exact arithmetic, for every 3 x 4 weight and length-4
    x, in each of the three block rows of the notebook's [hess2] the three
    4 x 4 blocks add up to the zero matrix; [hess2] sends every vector
    (u, u, u), u of length 4, to zero; and it is singular: some non-zero
    vector is sent to zero. *)
Theorem analytical_hessian_block_rows_sum_to_zero
    (m : LogisticRegressionModel) (x : vector) :
  shape 3 4 (W_of m) -> length x = 4%nat ->
  exists H,
    hess2 m [x] = Ok H /\
    (forall i, (i < 3)%nat ->
       madd (madd (get_block H (i * 4) 0 4 4) (get_block H (i * 4) 4 4 4))
            (get_block H (i * 4) 8 4 4)
       = zeros 4 4) /\
    (forall u, length u = 4%nat -> matvec H (u ++ u ++ u) = repeat 0 12) /\
    (exists v, length v = 12%nat /\ v <> repeat 0 12 /\ matvec H v = repeat 0 12).
Proof.
  intros HW Hx. eexists. split; [now apply hess2_closed_form|].
  unfold analytical_hessian, analytical_hessian4.
  destruct (probabilities_simplex (W_of m) x HW) as (p0 & p1 & p2 & -> & _ & _ & _ & Hs).
  split; [|split].
  - intros i Hi. now apply hessian_of_block_sums.
  - intros u Hu. now apply hessian_of_kernel.
  - exists ([1; 1; 1; 1] ++ [1; 1; 1; 1] ++ [1; 1; 1; 1]).
    split; [reflexivity|]. split.
    + intros Heq. cbn [app repeat] in Heq. injection Heq. intros. lra.
    + now apply hessian_of_kernel.
Qed.

Lemma analytical_hessian_block_rows_sum_to_zero_witness :
  shape 3 4 (W_of model_zero) /\ length x_example = 4%nat /\
  exists H,
    hess2 model_zero [x_example] = Ok H /\
    (forall u, length u = 4%nat -> matvec H (u ++ u ++ u) = repeat 0 12).
Proof.
  assert (HW : shape 3 4 (W_of model_zero))
    by (split; [reflexivity | repeat constructor]).
  assert (Hx : length x_example = 4%nat) by reflexivity.
  split; [exact HW|]. split; [exact Hx|].
  destruct (analytical_hessian_block_rows_sum_to_zero model_zero x_example HW Hx)
    as (H & HH & _ & Hk & _).
  exists H. split; [exact HH | exact Hk].
Defined.

(** * Beyond the claims: the rest of the notebook's code *)

(** ** The forward pass on a batch of any size *)

Lemma forallb_length_Forall (n : nat) (data : matrix) :
  forallb (fun row => (length row =? n)%nat) data = true
  <-> Forall (fun row => length row = n) data.
Proof.
  rewrite forallb_forall, Forall_forall.
  split; intros H row Hin; apply Nat.eqb_eq; auto.
Qed.

Lemma F_linear_rows (W : matrix) (data : matrix) :
  shape 3 4 W ->
  F_linear data W
  = if forallb (fun row => (length row =? 4)%nat) data
    then Ok (map (logits W) data)
    else Raise RuntimeError.
Proof.
  intros HW.
  destruct (shape_3_4_inv _ HW) as (r0 & r1 & r2 & -> & H0 & H1 & H2).
  destruct (vector4_inv _ H0) as (a0 & a1 & a2 & a3 & ->).
  destruct (vector4_inv _ H1) as (b0 & b1 & b2 & b3 & ->).
  destruct (vector4_inv _ H2) as (c0 & c1 & c2 & c3 & ->).
  unfold F_linear, matmul.
  cbn [T cols rows hd length seq map column nth].
  destruct (forallb _ data); reflexivity.
Qed.

(** X1.  On a 3 x 4 weight the forward pass of a batch of any number of rows
    returns, when every row has 4 entries, one row of 3 logits W . x per
    sample (none for an empty batch), and raises a RuntimeError as soon as
    one row has another length. *)
Theorem forward_batch (m : LogisticRegressionModel) (data : matrix) :
  shape 3 4 (W_of m) ->
  (Forall (fun row => length row = 4%nat) data ->
   forward m data = Ok (map (logits (W_of m)) data) /\
   shape (length data) 3 (map (logits (W_of m)) data)) /\
  (~ Forall (fun row => length row = 4%nat) data ->
   forward m data = Raise RuntimeError).
Proof.
  intros HW. unfold forward. rewrite (F_linear_rows _ _ HW).
  split; intros Hd.
  - apply forallb_length_Forall in Hd. rewrite Hd. split; [reflexivity|].
    split; [apply length_map|].
    apply Forall_forall. intros row Hin.
    apply in_map_iff in Hin. destruct Hin as (r & <- & _).
    unfold logits. rewrite length_map. apply HW.
  - destruct (forallb _ data) eqn:E; [|reflexivity].
    apply forallb_length_Forall in E. contradiction.
Qed.

Lemma forward_batch_witness :
  shape 3 4 (W_of model_zero) /\
  (Forall (fun row => length row = 4%nat) [x_example; x_example] ->
   forward model_zero [x_example; x_example]
   = Ok (map (logits (W_of model_zero)) [x_example; x_example]) /\
   shape 2 3 (map (logits (W_of model_zero)) [x_example; x_example])).
Proof.
  assert (HW : shape 3 4 (W_of model_zero))
    by (split; [reflexivity | repeat constructor]).
  split; [exact HW|].
  exact (proj1 (forward_batch model_zero [x_example; x_example] HW)).
Defined.

(** ** [F.one_hot] and the closed-form gradient on any label *)

Lemma one_hot_row_sum (t : Z) (row : vector) :
  one_hot_row 3 t = Ok row ->
  length row = 3%nat /\ sum row = 1 /\ nth (Z.to_nat t) row 0 = 1 /\
  Forall (fun a => a = 0 \/ a = 1) row.
Proof.
  unfold one_hot_row.
  destruct ((0 <=? t)%Z && (t <? Z.of_nat 3)%Z)%bool eqn:E; [|discriminate].
  apply andb_true_iff in E. destruct E as [E1 E2].
  apply Z.leb_le in E1. apply Z.ltb_lt in E2. change (Z.of_nat 3) with 3%Z in E2.
  destruct (label_cases t (conj E1 E2)) as [-> | [-> | ->]]; intros [= <-]; crunch;
    (split; [reflexivity|]); (split; [lra|]); (split; [reflexivity|]);
    repeat (apply Forall_cons; [first [left; reflexivity | right; reflexivity]|]);
    apply Forall_nil.
Qed.

(** X5.  [F.one_hot(target, num_classes=3)] on any number of labels: when
    every label is in {0,1,2} it returns one row per label, of 3 entries that
    are 0 or 1, of sum 1, with the 1 at the label; as soon as one label is
    outside {0,1,2} it raises a RuntimeError. *)
Theorem one_hot_rows (target : list Z) :
  (Forall (fun t => (0 <= t < 3)%Z) target ->
   exists M,
     one_hot target 3 = Ok M /\ length M = length target /\
     Forall2 (fun t row =>
                length row = 3%nat /\ sum row = 1 /\ nth (Z.to_nat t) row 0 = 1 /\
                Forall (fun a => a = 0 \/ a = 1) row)
             target M) /\
  (~ Forall (fun t => (0 <= t < 3)%Z) target ->
   one_hot target 3 = Raise RuntimeError).
Proof.
  split.
  - induction 1 as [|t target Ht _ IH].
    + exists []. repeat split; constructor.
    + destruct IH as (M & HM & HL & HF).
      destruct (one_hot_row 3 t) as [row | e] eqn:Hrow.
      * exists (row :: M). cbn [one_hot]. rewrite Hrow, HM. cbn [bind length].
        split; [reflexivity|]. split; [now rewrite HL|].
        constructor; [now apply one_hot_row_sum | exact HF].
      * unfold one_hot_row in Hrow.
        destruct (Z.leb_spec 0 t); destruct (Z.ltb_spec t (Z.of_nat 3));
          cbn [andb] in Hrow; try discriminate; lia.
  - induction target as [|t target IH]; intros Hn.
    + exfalso. apply Hn. constructor.
    + cbn [one_hot]. unfold one_hot_row at 1.
      destruct (Z.leb_spec 0 t); destruct (Z.ltb_spec t (Z.of_nat 3));
        cbn [andb bind]; try reflexivity.
      rewrite IH; [reflexivity|].
      intros HF. apply Hn. constructor; [lia | exact HF].
Qed.

(** X6.  On a 3 x 4 weight and a length-4 x the analytical-gradient cell
    raises exactly when the label is outside {0,1,2}, and what it raises is a
    RuntimeError (of [F.one_hot]); this includes the label -100, on which the
    criterion raises nothing. *)
Theorem g3_raises_iff_label_invalid
    (m : LogisticRegressionModel) (x : vector) (y : Z) :
  shape 3 4 (W_of m) -> length x = 4%nat ->
  (g3 m [x] [y] = Raise RuntimeError <-> ~ (0 <= y < 3)%Z) /\
  (forall e, g3 m [x] [y] = Raise e -> e = RuntimeError) /\
  g3 m [x] [ignore_index] = Raise RuntimeError.
Proof.
  intros HW Hx.
  assert (Hbad : forall t, ~ (0 <= t < 3)%Z -> g3 m [x] [t] = Raise RuntimeError).
  { intros t Ht. unfold g3, g3_matrix.
    rewrite (forward_logits m x HW Hx). cbn [bind one_hot]. unfold one_hot_row.
    destruct (Z.leb_spec 0 t); destruct (Z.ltb_spec t (Z.of_nat 3));
      cbn [andb bind]; try reflexivity; lia. }
  split; [|split].
  - split.
    + intros Hr Hy. rewrite (g3_closed_form m x y HW Hx Hy) in Hr. discriminate.
    + apply Hbad.
  - intros e He.
    destruct (Z.leb_spec 0 y); destruct (Z.ltb_spec y 3);
      try (rewrite Hbad in He by lia; now injection He).
    rewrite (g3_closed_form m x y HW Hx) in He by lia. discriminate.
  - apply Hbad. unfold ignore_index. lia.
Qed.

Lemma g3_raises_iff_label_invalid_witness :
  shape 3 4 (W_of model_zero) /\ length x_example = 4%nat /\
  (g3 model_zero [x_example] [5%Z] = Raise RuntimeError <-> ~ (0 <= 5 < 3)%Z).
Proof.
  assert (HW : shape 3 4 (W_of model_zero))
    by (split; [reflexivity | repeat constructor]).
  assert (Hx : length x_example = 4%nat) by reflexivity.
  split; [exact HW|]. split; [exact Hx|].
  exact (proj1 (g3_raises_iff_label_invalid model_zero x_example 5%Z HW Hx)).
Defined.

(** ** torch.func differentiates at the parameter set it is given *)

Section AnyParameterSet.

(** A module, whatever its own weight, a 3 x 4 tensor passed for
    "linear.weight", and a sample. *)
Variable m : LogisticRegressionModel.
Variable V : matrix.
Variable x : vector.
Variable y : Z.
Hypothesis HV : shape 3 4 V.
Hypothesis Hx : length x = 4%nat.
Hypothesis Hy : (0 <= y < 3)%Z.



End AnyParameterSet.



(** ** [backward], with or without a reset [.grad] *)

Lemma backward_characterised (m : LogisticRegressionModel) (x : vector) (y : Z)
    (r : result LogisticRegressionModel) :
  shape 3 4 (W_of m) -> length x = 4%nat -> (0 <= y < 3)%Z ->
  backward m [x] [y] r <->
  r = Ok (with_grad m (accumulate (grad (weight (linear m)))
                                  (analytical_gradient (W_of m) x y))).
Proof.
  intros HW Hx Hy.
  destruct (compute_loss_named m x y HW Hx Hy) as [v Hv].
  pose proof (loss_gradient m (W_of m) x y HW Hx Hy) as HG.
  assert (Hloss : model_loss m [x] [y] = Ok (Real v)) by exact Hv.
  split.
  - intros Hrun.
    inversion Hrun as [e He | v' G Hv' HG' | Hn]; subst; [congruence | | congruence].
    now rewrite (is_gradient_unique _ _ _ _ HG' HG).
  - intros ->. apply (backward_ok _ _ _ v); [exact Hloss | exact HG].
Qed.

Lemma scale_2_madd (G : matrix) : madd G G = scale 2 G.
Proof.
  unfold madd, scale. induction G as [|row G IH]; cbn [combine map]; [reflexivity|].
  f_equal; [|exact IH].
  clear. induction row as [|a row IH]; cbn [combine map]; [reflexivity|].
  f_equal; [ring | exact IH].
Qed.

(** X8.  [backward] adds to a [.grad] that was not reset: on a 3 x 4 weight
    and a sample, a first [backward] after [zero_grad] leaves the gradient in
    [.grad], and a second one without [zero_grad] leaves twice the gradient,
    which is then what the last line of the cell reads. *)
Theorem backward_twice_doubles (m : LogisticRegressionModel) (x : vector) (y : Z) :
  shape 3 4 (W_of m) -> length x = 4%nat -> (0 <= y < 3)%Z ->
  exists m1 m2,
    (forall r, backward (zero_grad m) [x] [y] r <-> r = Ok m1) /\
    (forall r, backward m1 [x] [y] r <-> r = Ok m2) /\
    read_grads m1 = Ok (unsqueeze1 (flatten (analytical_gradient (W_of m) x y))) /\
    read_grads m2
    = Ok (unsqueeze1 (flatten (scale 2 (analytical_gradient (W_of m) x y)))).
Proof.
  intros HW Hx Hy. do 2 eexists.
  split; [intros r; apply (backward_characterised (zero_grad m) x y r HW Hx Hy)|].
  split; [intros r; apply backward_characterised; assumption|].
  unfold read_grads, zero_grad, with_grad, accumulate, W_of.
  cbn [grad weight linear data_ concat]. rewrite !app_nil_r, scale_2_madd.
  split; reflexivity.
Qed.

Lemma backward_twice_doubles_witness :
  shape 3 4 (W_of model_zero) /\ length x_example = 4%nat /\ (0 <= 0 < 3)%Z /\
  exists m1 m2,
    (forall r, backward (zero_grad model_zero) [x_example] [0%Z] r <-> r = Ok m1) /\
    (forall r, backward m1 [x_example] [0%Z] r <-> r = Ok m2) /\
    read_grads m1
    = Ok (unsqueeze1 (flatten (analytical_gradient (W_of model_zero) x_example 0))) /\
    read_grads m2
    = Ok (unsqueeze1 (flatten (scale 2 (analytical_gradient (W_of model_zero)
                                                              x_example 0)))).
Proof.
  assert (HW : shape 3 4 (W_of model_zero))
    by (split; [reflexivity | repeat constructor]).
  assert (Hx : length x_example = 4%nat) by reflexivity.
  assert (Hy : (0 <= 0 < 3)%Z) by lia.
  split; [exact HW|]. split; [exact Hx|]. split; [exact Hy|].
  exact (backward_twice_doubles model_zero x_example 0%Z HW Hx Hy).
Defined.

(** ** Training *)

(** The model after one SGD step on the sample (x, y). *)
Lemma train_step_characterised (m : LogisticRegressionModel) (x : vector) (y : Z)
    (r : result LogisticRegressionModel) :
  shape 3 4 (W_of m) -> length x = 4%nat -> (0 <= y < 3)%Z ->
  train_step m [x] [y] r <->
  r = Ok (mkModel (mkLinear (mkNNParameter
            (madd (W_of m) (scale (- lr) (analytical_gradient (W_of m) x y)))
            (Some (analytical_gradient (W_of m) x y))))).
Proof.
  intros HW Hx Hy. unfold train_step. split.
  - intros (r0 & Hrun & ->).
    apply (backward_characterised (zero_grad m) x y _ HW Hx Hy) in Hrun. subst r0.
    reflexivity.
  - intros ->. eexists. split.
    + apply (backward_characterised (zero_grad m) x y _ HW Hx Hy). reflexivity.
    + reflexivity.
Qed.

Lemma sgd_update_shape (W : matrix) (x : vector) (y : Z) :
  shape 3 4 W -> length x = 4%nat ->
  shape 3 4 (madd W (scale (- lr) (analytical_gradient W x y))).
Proof.
  intros HW Hx. explode_shapes HW Hx.
  split; [reflexivity | repeat constructor].
Qed.

Lemma analytical_gradient_shape (W : matrix) (x : vector) (y : Z) :
  length x = 4%nat -> shape 3 4 (analytical_gradient W x y).
Proof.
  intros Hx. destruct (vector4_inv _ Hx) as (x0 & x1 & x2 & x3 & ->).
  split; [reflexivity | repeat constructor].
Qed.

Lemma shape_3_4_numel (W : matrix) : shape 3 4 W -> numel W = 12%nat.
Proof.
  intros HW.
  destruct (shape_3_4_inv _ HW) as (r0 & r1 & r2 & -> & H0 & H1 & H2).
  unfold numel, flatten. cbn [concat]. rewrite !length_app, H0, H1, H2. reflexivity.
Qed.

(** What the loop keeps, batch after batch. *)
Lemma train_invariant (samples : list (vector * Z)) :
  Forall valid_sample samples ->
  forall m, shape 3 4 (W_of m) ->
    (exists m', train m (batches_of samples) (Ok m')) /\
    (forall r, train m (batches_of samples) r ->
       exists m',
         r = Ok m' /\ shape 3 4 (W_of m') /\
         (samples <> [] ->
          exists G, grad (weight (linear m')) = Some G /\ shape 3 4 G)).
Proof.
  induction 1 as [|[x y] samples [Hx Hy] _ IH]; intros m HW.
  - split.
    + exists m. constructor.
    + intros r Hr. inversion Hr; subst. exists m.
      split; [reflexivity|]. split; [exact HW|].
      intros Hn. now contradiction Hn.
  - cbn [fst snd] in Hx, Hy. cbn [batches_of map fst snd].
    fold (batches_of samples).
    remember (mkModel (mkLinear (mkNNParameter
                (madd (W_of m) (scale (- lr) (analytical_gradient (W_of m) x y)))
                (Some (analytical_gradient (W_of m) x y))))) as m1 eqn:Em1.
    assert (Hstep : forall r, train_step m [x] [y] r <-> r = Ok m1)
      by (intros r; rewrite Em1; now apply train_step_characterised).
    assert (HW1 : shape 3 4 (W_of m1))
      by (rewrite Em1; now apply sgd_update_shape).
    assert (HG1 : grad (weight (linear m1)) = Some (analytical_gradient (W_of m) x y))
      by (now rewrite Em1).
    clear Em1.
    destruct (IH m1 HW1) as [[m' Hex] Hall].
    split.
    + exists m'. apply (train_next _ _ _ _ m1); [now apply Hstep | exact Hex].
    + intros r Hr.
      inversion Hr as [| d t rest m1' r' Hs Ht | d t rest e Hs]; subst.
      * apply Hstep in Hs. injection Hs as Hs. subst m1'.
        destruct (Hall r Ht) as (m2 & -> & HW2 & HG2).
        exists m2. split; [reflexivity|]. split; [exact HW2|].
        intros _. destruct samples as [|s samples].
        -- assert (Hm2 : m2 = m1) by (inversion Ht; reflexivity). subst m2.
           exists (analytical_gradient (W_of m) x y).
           split; [exact HG1 | now apply analytical_gradient_shape].
        -- apply HG2. discriminate.
      * apply Hstep in Hs. discriminate.
Qed.

Lemma valid_orders (dataset : list (vector * Z)) (orders : list (list (vector * Z))) :
  Forall valid_sample dataset ->
  Forall (Permutation dataset) orders ->
  Forall valid_sample (concat orders).
Proof.
  intros Hd Ho. apply Forall_concat.
  apply Forall_forall. intros o Hin.
  rewrite Forall_forall in Ho.
  exact (Permutation_Forall (Ho o Hin) Hd).
Qed.

(** X10.  Training, however many epochs and in whatever order every epoch
    goes through the samples: on a 3 x 4 weight and samples of 4 features
    with labels of {0,1,2} the two loops run to their end without an
    exception; the trained weight is 3 x 4 again (12 parameters); and after
    at least one step [.grad] holds a 3 x 4 gradient, not [None]. *)
Theorem training_keeps_shape
    (epochs : nat) (dataset : list (vector * Z)) (m : LogisticRegressionModel) :
  shape 3 4 (W_of m) -> Forall valid_sample dataset ->
  (exists m', training epochs dataset m (Ok m')) /\
  (forall r, training epochs dataset m r ->
     exists m',
       r = Ok m' /\ shape 3 4 (W_of m') /\
       number_of_parameters m' = 12%nat /\
       (dataset <> [] -> (0 < epochs)%nat ->
        exists G, grad (weight (linear m')) = Some G /\ shape 3 4 G)).
Proof.
  intros HW Hd. split.
  - assert (Ho : Forall (Permutation dataset) (repeat dataset epochs)).
    { apply Forall_forall. intros o Hin. apply repeat_spec in Hin. subst o.
      apply Permutation_refl. }
    destruct (proj1 (train_invariant _ (valid_orders _ _ Hd Ho) m HW)) as [m' Hm'].
    exists m', (repeat dataset epochs).
    split; [apply repeat_length|]. split; [exact Ho | exact Hm'].
  - intros r (orders & Hlen & Ho & Hr).
    destruct (proj2 (train_invariant _ (valid_orders _ _ Hd Ho) m HW) r Hr)
      as (m' & -> & HW' & HG).
    exists m'. split; [reflexivity|]. split; [exact HW'|].
    split.
    + unfold number_of_parameters, parameters. cbn [map fold_right].
      rewrite (shape_3_4_numel _ HW'). reflexivity.
    + intros Hne Hep. apply HG.
      destruct orders as [|o orders]; [cbn in Hlen; lia|].
      inversion Ho as [|? ? Hp _]; subst.
      intros Hc. cbn [concat] in Hc. apply app_eq_nil in Hc. destruct Hc as [-> _].
      apply Permutation_sym, Permutation_nil in Hp. contradiction.
Qed.

Lemma training_keeps_shape_witness :
  shape 3 4 (W_of model_zero) /\
  Forall valid_sample [(x_example, 0%Z); (x_example, 2%Z)] /\
  exists m', training 100 [(x_example, 0%Z); (x_example, 2%Z)] model_zero (Ok m').
Proof.
  assert (HW : shape 3 4 (W_of model_zero))
    by (split; [reflexivity | repeat constructor]).
  assert (Hd : Forall valid_sample [(x_example, 0%Z); (x_example, 2%Z)]).
  { repeat constructor; cbn; lia. }
  split; [exact HW|]. split; [exact Hd|].
  exact (proj1 (training_keeps_shape 100 _ model_zero HW Hd)).
Defined.

(** X9.  One iteration of the training loop on a 3 x 4 weight and a sample
    has one outcome: every entry W[i][j] becomes
    W[i][j] - 0.01 (p[i] - t[i]) x[j], and [.grad] holds the gradient taken at
    the weight before the update. *)
Theorem train_step_update (m : LogisticRegressionModel) (x : vector) (y : Z) :
  shape 3 4 (W_of m) -> length x = 4%nat -> (0 <= y < 3)%Z ->
  exists m',
    train_step m [x] [y] (Ok m') /\
    (forall r, train_step m [x] [y] r -> r = Ok m') /\
    (forall i j, (i < 3)%nat -> (j < 4)%nat ->
       entry (W_of m') i j
       = entry (W_of m) i j
         - lr * ((nth i (probabilities (W_of m) x) 0 - nth i (one_hot_vector y) 0)
                 * nth j x 0)) /\
    grad (weight (linear m')) = Some (analytical_gradient (W_of m) x y).
Proof.
  intros HW Hx Hy. eexists. split; [|split; [|split]].
  - now apply train_step_characterised.
  - intros r Hr. now apply train_step_characterised in Hr.
  - intros i j Hi Hj. unfold W_of at 1. cbn [data_ weight linear].
    unfold analytical_gradient.
    destruct (probabilities_simplex (W_of m) x HW) as (p0 & p1 & p2 & -> & _).
    explode_shapes HW Hx.
    destruct i as [|[|[|i]]]; [| | | lia];
      (destruct j as [|[|[|[|j]]]]; [| | | | lia]); crunch; ring.
  - reflexivity.
Qed.

Lemma train_step_update_witness :
  shape 3 4 (W_of model_zero) /\ length x_example = 4%nat /\ (0 <= 1 < 3)%Z /\
  exists m',
    train_step model_zero [x_example] [1%Z] (Ok m') /\
    grad (weight (linear m'))
    = Some (analytical_gradient (W_of model_zero) x_example 1).
Proof.
  assert (HW : shape 3 4 (W_of model_zero))
    by (split; [reflexivity | repeat constructor]).
  assert (Hx : length x_example = 4%nat) by reflexivity.
  assert (Hy : (0 <= 1 < 3)%Z) by lia.
  split; [exact HW|]. split; [exact Hx|]. split; [exact Hy|].
  destruct (train_step_update model_zero x_example 1%Z HW Hx Hy)
    as (m' & Hstep & _ & _ & Hg).
  exists m'. split; [exact Hstep | exact Hg].
Defined.

(** X11.  A batch whose label is outside {0,1,2} and is not -100 stops the
    training loop: whatever batches follow, the loop's one outcome is the
    IndexError of the criterion, and no model comes out of it. *)
Theorem train_stops_on_invalid_label
    (m : LogisticRegressionModel) (x : vector) (y : Z)
    (rest : list (matrix * list Z)) :
  shape 3 4 (W_of m) -> length x = 4%nat ->
  ~ (0 <= y < 3)%Z -> y <> ignore_index ->
  train m (([x], [y]) :: rest) (Raise IndexError) /\
  forall r, train m (([x], [y]) :: rest) r -> r = Raise IndexError.
Proof.
  intros HW Hx Hy Hi.
  assert (Hloss : model_loss (zero_grad m) [x] [y] = Raise IndexError).
  { change (model_loss (zero_grad m) [x] [y])
      with (compute_loss m [("linear.weight"%string, W_of m)] [x] [y]).
    rewrite (compute_loss_by_label m (W_of m) x y HW Hx).
    destruct (Z.eqb_spec y ignore_index); [contradiction|].
    destruct (Z.leb_spec 0 y); destruct (Z.ltb_spec y 3); cbn [andb];
      try reflexivity; lia. }
  assert (Hstep : forall r, train_step m [x] [y] r -> r = Raise IndexError).
  { intros r (r0 & Hrun & ->).
    inversion Hrun as [e He | v G Hv HG | Hn]; subst; [|congruence|congruence].
    rewrite Hloss in He. injection He as <-. reflexivity. }
  split.
  - apply train_raise. exists (Raise IndexError). split; [|reflexivity].
    now apply backward_raise.
  - intros r Hr.
    inversion Hr as [| d t rest' m1 r' Hs Ht | d t rest' e Hs]; subst.
    + apply Hstep in Hs. discriminate.
    + apply Hstep in Hs. exact Hs.
Qed.

Lemma train_stops_on_invalid_label_witness :
  shape 3 4 (W_of model_zero) /\ length x_example = 4%nat /\
  ~ (0 <= 7 < 3)%Z /\ 7%Z <> ignore_index /\
  train model_zero (([x_example], [7%Z]) :: batches_of [(x_example, 0%Z)])
        (Raise IndexError).
Proof.
  assert (HW : shape 3 4 (W_of model_zero))
    by (split; [reflexivity | repeat constructor]).
  assert (Hx : length x_example = 4%nat) by reflexivity.
  assert (Hy : ~ (0 <= 7 < 3)%Z) by lia.
  assert (Hi : 7%Z <> ignore_index) by (unfold ignore_index; lia).
  split; [exact HW|]. split; [exact Hx|]. split; [exact Hy|]. split; [exact Hi|].
  exact (proj1 (train_stops_on_invalid_label model_zero x_example 7%Z _ HW Hx Hy Hi)).
Defined.

(** ** Bounds on the derivatives *)









(** ** A feature vector of zeros *)

(** X14.  The model has no bias: on the feature vector of four zeros, and
    whatever the 3 x 4 weight, the logits are 0, the probabilities are 1/3
    each, the loss is log 3, and the analytical gradient and Hessian are
    zero. *)
Theorem zero_features_zero_derivatives (m : LogisticRegressionModel) (y : Z) :
  shape 3 4 (W_of m) -> (0 <= y < 3)%Z ->
  forward m [repeat 0 4] = Ok [repeat 0 3] /\
  probabilities (W_of m) (repeat 0 4) = repeat (1 / 3) 3 /\
  model_loss m [repeat 0 4] [y] = Ok (Real (ln 3)) /\
  g3 m [repeat 0 4] [y] = Ok (unsqueeze1 (repeat 0 12)) /\
  hess2 m [repeat 0 4] = Ok (zeros 12 12).
Proof.
  intros HW Hy.
  assert (Hx : length (repeat 0 4) = 4%nat) by reflexivity.
  assert (HL : logits (W_of m) (repeat 0 4) = repeat 0 3).
  { destruct (shape_3_4_inv _ HW) as (r0 & r1 & r2 & -> & E0 & E1 & E2).
    destruct (vector4_inv _ E0) as (a0 & a1 & a2 & a3 & ->).
    destruct (vector4_inv _ E1) as (b0 & b1 & b2 & b3 & ->).
    destruct (vector4_inv _ E2) as (c0 & c1 & c2 & c3 & ->).
    crunch. entrywise ltac:(ring). }
  assert (HP : probabilities (W_of m) (repeat 0 4) = repeat (1 / 3) 3).
  { unfold probabilities. rewrite HL. crunch. rewrite exp_0. entrywise ltac:(field). }
  pose proof (forward_logits m (repeat 0 4) HW Hx) as HF.
  pose proof (loss_is_negative_log_probability m (W_of m) (repeat 0 4) y HW Hx Hy) as HV.
  pose proof (g3_closed_form m (repeat 0 4) y HW Hx Hy) as HG.
  pose proof (hess2_closed_form m (repeat 0 4) HW Hx) as HH.
  unfold analytical_gradient in HG.
  unfold analytical_hessian, analytical_hessian4 in HH.
  rewrite HL in HF. rewrite HP in HV, HG, HH.
  split; [exact HF|]. split; [exact HP|]. split; [|split].
  - etransitivity; [exact HV|]. do 2 f_equal.
    destruct (label_cases y Hy) as [-> | [-> | ->]]; crunch;
      unfold Rdiv; rewrite Rmult_1_l, ln_Rinv by lra; ring.
  - etransitivity; [exact HG|].
    destruct (label_cases y Hy) as [-> | [-> | ->]]; crunch; entrywise ltac:(ring).
  - etransitivity; [exact HH|]. crunch; entrywise ltac:(ring).
Qed.

Lemma zero_features_zero_derivatives_witness :
  shape 3 4 (W_of (with_weight model_zero [x_example; x_example; x_example])) /\
  (0 <= 2 < 3)%Z /\
  model_loss (with_weight model_zero [x_example; x_example; x_example])
             [repeat 0 4] [2%Z]
  = Ok (Real (ln 3)).
Proof.
  assert (HW : shape 3 4 (W_of (with_weight model_zero
                                  [x_example; x_example; x_example])))
    by (split; [reflexivity | repeat constructor]).
  assert (Hy : (0 <= 2 < 3)%Z) by lia.
  split; [exact HW|]. split; [exact Hy|].
  exact (proj1 (proj2 (proj2 (zero_features_zero_derivatives _ 2%Z HW Hy)))).
Defined.

(** ** The blocks of the analytical Hessian, as the loop writes them *)

(** X15.  On a 3 x 4 weight and a length-4 x, the slice
    [hess2[i*4:(i+1)*4, j*4:(j+1)*4]] of the finished [hess2] is, for every i
    and j below 3, the block p[i] (int(i == j) - p[j]) (data.T @ data) that
    iteration (i, j) assigned: no later iteration writes into it. *)
Theorem hess2_blocks (m : LogisticRegressionModel) (x : vector) :
  shape 3 4 (W_of m) -> length x = 4%nat ->
  exists H xx,
    hess2 m [x] = Ok H /\ matmul (T [x]) [x] = Ok xx /\
    forall i j, (i < 3)%nat -> (j < 3)%nat ->
      get_block H (i * 4) (j * 4) 4 4
      = scale (nth i (probabilities (W_of m) x) 0
               * (int_eq i j - nth j (probabilities (W_of m) x) 0)) xx.
Proof.
  intros HW Hx. do 2 eexists. split; [now apply hess2_closed_form|].
  unfold analytical_hessian, analytical_hessian4.
  destruct (probabilities_simplex (W_of m) x HW) as (p0 & p1 & p2 & -> & _).
  destruct (vector4_inv _ Hx) as (x0 & x1 & x2 & x3 & ->).
  split; [reflexivity|].
  intros i j Hi Hj.
  destruct i as [|[|[|i]]]; [| | | lia];
    (destruct j as [|[|[|j]]]; [| | | lia]); crunch; entrywise ltac:(ring).
Qed.

Lemma hess2_blocks_witness :
  shape 3 4 (W_of model_zero) /\ length x_example = 4%nat /\
  exists H xx,
    hess2 model_zero [x_example] = Ok H /\ matmul (T [x_example]) [x_example] = Ok xx /\
    forall i j, (i < 3)%nat -> (j < 3)%nat ->
      get_block H (i * 4) (j * 4) 4 4
      = scale (nth i (probabilities (W_of model_zero) x_example) 0
               * (int_eq i j - nth j (probabilities (W_of model_zero) x_example) 0)) xx.
Proof.
  assert (HW : shape 3 4 (W_of model_zero))
    by (split; [reflexivity | repeat constructor]).
  assert (Hx : length x_example = 4%nat) by reflexivity.
  split; [exact HW|]. split; [exact Hx|].
  exact (hess2_blocks model_zero x_example HW Hx).
Defined.

(** ** Slice assignment *)

Lemma set_slice_length {A : Type} (l new : list A) (k : nat) :
  (k + length new <= length l)%nat -> length (set_slice l k new) = length l.
Proof.
  intros H. unfold set_slice.
  rewrite !length_app, length_firstn, length_skipn. lia.
Qed.

Lemma get_set_slice (l new : vector) (k : nat) :
  (k + length new <= length l)%nat ->
  get_slice (set_slice l k new) k (length new) = new.
Proof.
  intros H. unfold get_slice, set_slice.
  rewrite skipn_app, length_firstn.
  replace (Nat.min k (length l)) with k by lia.
  rewrite Nat.sub_diag, skipn_all2 by (rewrite length_firstn; lia).
  cbn [skipn app]. rewrite firstn_app, Nat.sub_diag, firstn_all.
  cbn [firstn]. now rewrite app_nil_r.
Qed.

Lemma zip_with_length {A B C : Type} (f : A -> B -> C) (l : list A) (m : list B) :
  length (zip_with f l m) = Nat.min (length l) (length m).
Proof.
  revert m. induction l as [|a l IH]; intros [|b m]; cbn; auto.
Qed.

Lemma get_zip_set (rows B : matrix) (c0 bc : nat) :
  length rows = length B ->
  Forall (fun row => (c0 + bc <= length row)%nat) rows ->
  Forall (fun b => length b = bc) B ->
  map (fun row => firstn bc (skipn c0 row))
      (zip_with (fun row b => set_slice row c0 b) rows B)
  = B.
Proof.
  revert B. induction rows as [|row rows IH]; intros [|b B] HL Hr HB;
    try discriminate; [reflexivity|].
  inversion Hr as [|? ? Hrow Hr']. inversion HB as [|? ? Hb HB']. cbn [zip_with map].
  f_equal.
  - rewrite <- Hb. apply (get_set_slice row b c0). lia.
  - apply IH; auto.
Qed.

Lemma Forall_firstn {A : Type} (P : A -> Prop) (n : nat) (l : list A) :
  Forall P l -> Forall P (firstn n l).
Proof.
  intros H. revert n. induction H; intros [|n]; cbn [firstn]; constructor; auto.
Qed.

Lemma Forall_skipn {A : Type} (P : A -> Prop) (n : nat) (l : list A) :
  Forall P l -> Forall P (skipn n l).
Proof.
  intros H. revert n. induction H; intros [|n]; cbn [skipn]; auto.
Qed.

Lemma zip_set_shape (rows B : matrix) (c c0 bc : nat) :
  (c0 + bc <= c)%nat ->
  Forall (fun row => length row = c) rows ->
  Forall (fun b => length b = bc) B ->
  Forall (fun row => length row = c)
         (zip_with (fun row b => set_slice row c0 b) rows B).
Proof.
  intros Hc Hr. revert B.
  induction Hr as [|row rows Hrow _ IH]; intros [|b B] HB; cbn [zip_with];
    try constructor.
  - inversion HB as [|? ? Hb HB']. rewrite set_slice_length; [exact Hrow | lia].
  - inversion HB as [|? ? Hb HB']. now apply IH.
Qed.

(** X16.  Slice assignment and slice reading round-trip: for a block B of
    br x bc entries that fits into an r x c tensor H at (r0, c0),
    [H[r0:r0+br, c0:c0+bc] = B] keeps the shape of H and
    [H[r0:r0+br, c0:c0+bc]] then reads B back. *)
Theorem set_block_get_block (r c br bc r0 c0 : nat) (H B : matrix) :
  shape r c H -> shape br bc B ->
  (r0 + br <= r)%nat -> (c0 + bc <= c)%nat ->
  shape r c (set_block H r0 c0 B) /\
  get_block (set_block H r0 c0 B) r0 c0 br bc = B.
Proof.
  intros [HrH HcH] [HrB HcB] Hr Hc.
  assert (Hmid : length (firstn (length B) (skipn r0 H)) = length B)
    by (rewrite length_firstn, length_skipn; lia).
  assert (Hrows : Forall (fun row => length row = c) (firstn (length B) (skipn r0 H)))
    by (apply Forall_firstn, Forall_skipn; exact HcH).
  assert (Hzip : length (zip_with (fun row b => set_slice row c0 b)
                                  (firstn (length B) (skipn r0 H)) B) = length B)
    by (rewrite zip_with_length, Hmid; lia).
  split; [split|].
  - unfold set_block.
    rewrite !length_app, Hzip, length_firstn, length_skipn. lia.
  - unfold set_block. apply Forall_app. split; [|apply Forall_app; split].
    + now apply Forall_firstn.
    + now apply (zip_set_shape _ _ c c0 bc).
    + now apply Forall_skipn.
  - unfold get_block, set_block.
    rewrite skipn_app, length_firstn.
    replace (Nat.min r0 (length H)) with r0 by lia.
    rewrite Nat.sub_diag, skipn_all2 by (rewrite length_firstn; lia).
    cbn [skipn app]. rewrite <- HrB.
    set (Zs := zip_with (fun row b => set_slice row c0 b)
                        (firstn (length B) (skipn r0 H)) B) in *.
    rewrite firstn_app, Hzip, Nat.sub_diag. cbn [firstn]. rewrite app_nil_r.
    rewrite <- Hzip, firstn_all. subst Zs.
    apply get_zip_set; [exact Hmid | | exact HcB].
    eapply Forall_impl; [|exact Hrows]. cbn. intros row ->. exact Hc.
Qed.

Lemma set_block_get_block_witness :
  shape 2 3 [[1; 2; 3]; [4; 5; 6]] /\ shape 1 2 [[7; 8]] /\
  (1 + 1 <= 2)%nat /\ (1 + 2 <= 3)%nat /\
  get_block (set_block [[1; 2; 3]; [4; 5; 6]] 1 1 [[7; 8]]) 1 1 1 2 = [[7; 8]].
Proof.
  assert (H1 : shape 2 3 [[1; 2; 3]; [4; 5; 6]])
    by (split; [reflexivity | repeat constructor]).
  assert (H2 : shape 1 2 [[7; 8]]) by (split; [reflexivity | repeat constructor]).
  assert (H3 : (1 + 1 <= 2)%nat) by lia.
  assert (H4 : (1 + 2 <= 3)%nat) by lia.
  split; [exact H1|]. split; [exact H2|]. split; [exact H3|]. split; [exact H4|].
  exact (proj2 (set_block_get_block 2 3 1 2 1 1 _ _ H1 H2 H3 H4)).
Defined.

(** ** The loops of cell 11 write every entry *)

Lemma shape_12_12_inv (H : matrix) :
  shape 12 12 H ->
  exists r0 r1 r2 r3 r4 r5 r6 r7 r8 r9 r10 r11,
    H = [r0; r1; r2; r3; r4; r5; r6; r7; r8; r9; r10; r11] /\
    Forall (fun row => length row = 12%nat)
           [r0; r1; r2; r3; r4; r5; r6; r7; r8; r9; r10; r11].
Proof.
  intros [HL HF].
  do 12 (destruct H as [|? H]; [discriminate|]).
  destruct H; [|discriminate].
  do 12 eexists. split; [reflexivity | exact HF].
Qed.

(** The two loops from any 12 x 12 tensor and from [torch.zeros(12, 12)]. *)
Lemma hess2_loops_overwrite (p0 p1 p2 : R) (x : vector) (H0 : matrix) :
  length x = 4%nat -> shape 12 12 H0 ->
  hess2_loops [p0; p1; p2] [x] H0 = hess2_loops [p0; p1; p2] [x] (zeros 12 12).
Proof.
  intros Hx HH.
  destruct (vector4_inv _ Hx) as (x0 & x1 & x2 & x3 & ->).
  destruct (shape_12_12_inv _ HH)
    as (r0 & r1 & r2 & r3 & r4 & r5 & r6 & r7 & r8 & r9 & r10 & r11 & -> & HF).
  repeat match goal with
         | HF : Forall _ (_ :: _) |- _ =>
             let Hh := fresh in let Ht := fresh in
             inversion HF as [|? ? Hh Ht]; subst; clear HF;
             destruct (vector12_inv _ Hh) as (? & ? & ? & ? & ? & ? & ? & ? & ? & ? & ? & ? & ->);
             clear Hh
         end.
  reflexivity.
Qed.

(** X17.  The nine slice assignments of cell 11 write every entry of the
    12 x 12 tensor: run from any 12 x 12 tensor in place of
    [torch.zeros(12, 12)], the two loops end in the same [hess2]. *)
Theorem hess2_initial_tensor_irrelevant
    (m : LogisticRegressionModel) (x : vector) (H0 : matrix) :
  shape 3 4 (W_of m) -> length x = 4%nat -> shape 12 12 H0 ->
  hess2_loops (probabilities (W_of m) x) [x] H0 = hess2 m [x].
Proof.
  intros HW Hx HH.
  destruct (probabilities_simplex (W_of m) x HW) as (p0 & p1 & p2 & Hp & _).
  rewrite Hp, (hess2_loops_overwrite p0 p1 p2 x H0 Hx HH), <- Hp.
  unfold hess2. pose proof (forward_logits m x HW Hx) as HF.
  etransitivity; [|symmetry; apply (f_equal (fun r => bind r _) HF)].
  reflexivity.
Qed.

Lemma hess2_initial_tensor_irrelevant_witness :
  shape 3 4 (W_of model_zero) /\ length x_example = 4%nat /\
  shape 12 12 (repeat (repeat 1 12) 12) /\
  hess2_loops (probabilities (W_of model_zero) x_example) [x_example]
              (repeat (repeat 1 12) 12)
  = hess2 model_zero [x_example].
Proof.
  assert (HW : shape 3 4 (W_of model_zero))
    by (split; [reflexivity | repeat constructor]).
  assert (Hx : length x_example = 4%nat) by reflexivity.
  assert (HH : shape 12 12 (repeat (repeat 1 12) 12))
    by (split; [reflexivity | repeat constructor]).
  split; [exact HW|]. split; [exact Hx|]. split; [exact HH|].
  exact (hess2_initial_tensor_irrelevant model_zero x_example _ HW Hx HH).
Defined.

(** ** [torch.allclose] reads its second argument for the relative part *)

(** X18.  [torch.allclose(input, other)] is not symmetric on float64
    tensors: the relative part of the tolerance is taken of [other].  With
    b = 1 and a the float64 next to 1.0000100100005, [allclose] of b against
    a holds and [allclose] of a against b does not.  Nor is it reflexive: a
    tensor that holds a NaN is close to no tensor, itself included. *)
Theorem float64_allclose_not_symmetric :
  Float64.allclose [[Float64.b_one]] [[Float64.a_near]] = true /\
  Float64.allclose [[Float64.a_near]] [[Float64.b_one]] = false /\
  forall (input : Float64.fmatrix) (rest : Float64.fvector) (other : Float64.fmatrix),
    Float64.allclose input ((PrimFloat.nan :: rest) :: other) = false.
Proof.
  split; [vm_compute; reflexivity|].
  split; [vm_compute; reflexivity|].
  intros input rest other. apply float64_allclose_nan.
Qed.

(** ** The transpose *)

Lemma map_nth_seq_id (l : vector) :
  map (fun j => nth j l 0) (seq 0 (length l)) = l.
Proof.
  induction l as [|a l IH]; [reflexivity|].
  cbn [length seq map nth]. f_equal.
  rewrite <- seq_shift, map_map. exact IH.
Qed.

Lemma nth_column (M : matrix) (i j : nat) :
  nth i (column M j) 0 = nth j (nth i M []) 0.
Proof.
  unfold column. revert i.
  induction M as [|row M IH]; intros [|i]; cbn [map nth]; auto; now destruct j.
Qed.

Lemma column_T (M : matrix) (r c i : nat) :
  shape r c M -> (i < r)%nat -> column (T M) i = nth i M [].
Proof.
  intros [HL HF] Hi.
  assert (Hrow : length (nth i M []) = c).
  { rewrite Forall_forall in HF. apply HF. apply nth_In. lia. }
  assert (Hc : cols M = c).
  { unfold cols. destruct M as [|row M]; [cbn in HL; lia|].
    cbn [hd]. now inversion HF. }
  unfold T, column at 1. rewrite Hc, map_map.
  transitivity (map (fun j => nth j (nth i M []) 0) (seq 0 c)).
  - apply map_ext. intros j. apply nth_column.
  - rewrite <- Hrow. apply map_nth_seq_id.
Qed.

(** X19.  [.T] of a tensor of r x c entries, r and c not 0, has c x r
    entries, and [.T.T] is the tensor itself. *)
Theorem transpose_involutive (r c : nat) (M : matrix) :
  shape r c M -> (0 < r)%nat -> (0 < c)%nat ->
  shape c r (T M) /\ T (T M) = M.
Proof.
  intros HS Hr Hc. pose proof HS as [HL HF].
  assert (HcM : cols M = c).
  { unfold cols. destruct M as [|row M]; [cbn in HL; lia|].
    cbn [hd]. now inversion HF. }
  assert (HST : shape c r (T M)).
  { unfold T. rewrite HcM. split; [now rewrite length_map, length_seq|].
    apply Forall_forall. intros col Hin. apply in_map_iff in Hin.
    destruct Hin as (j & <- & _). unfold column. now rewrite length_map. }
  split; [exact HST|].
  assert (HcT : cols (T M) = r).
  { unfold cols. destruct HST as [HLT HFT].
    destruct (T M) as [|col TM]; [cbn in HLT; lia|].
    cbn [hd]. now inversion HFT. }
  unfold T at 1. rewrite HcT.
  apply (list_ext_nth []).
  - now rewrite length_map, length_seq.
  - intros i Hi. rewrite length_map, length_seq in Hi.
    rewrite (nth_indep _ [] (column (T M) 0))
      by (now rewrite length_map, length_seq).
    transitivity (column (T M) (nth i (seq 0 r) 0%nat)).
    + exact (map_nth (column (T M)) (seq 0 r) 0%nat i).
    + rewrite seq_nth by exact Hi. now apply (column_T M r c).
Qed.

Lemma transpose_involutive_witness :
  shape 3 4 W_zero /\ (0 < 3)%nat /\ (0 < 4)%nat /\
  shape 4 3 (T W_zero) /\ T (T W_zero) = W_zero.
Proof.
  assert (HS : shape 3 4 W_zero) by (split; [reflexivity | repeat constructor]).
  assert (Hr : (0 < 3)%nat) by lia.
  assert (Hc : (0 < 4)%nat) by lia.
  split; [exact HS|]. split; [exact Hr|]. split; [exact Hc|].
  exact (transpose_involutive 3 4 W_zero HS Hr Hc).
Defined.

(** ** The ignored label *)





